(** * Heroic Games Launcher: lifecycle operations of the legendary backend

    A shallow embedding of
      - [electron/legendary/games.ts]            (class [LegendaryGame]),
      - [src/backend/toolmanager/ipc_handler.ts] (the tool-manager IPC handlers),
    together with the properties of these operations that the design
    document states.

    Asynchronous methods are sequences of [await]ed steps; each one is
    embedded as a computation in a state-and-exception monad over the
    mutable objects it touches.  Collaborators that live in other modules
    (the process runner, the game library, the settings provider) are
    explicit parameters or small models, each marked where it is declared. *)

From Stdlib Require Import ZArith String Ascii List Bool Lia DecimalString DecimalZ DecimalPos.
From stdpp Require Import base option gmap strings.

Import ListNotations.
Local Open Scope string_scope.
Local Open Scope list_scope.

(* ===================================================================== *)
(** * JavaScript strings *)
(* ===================================================================== *)

(** A JavaScript string is embedded as a Rocq [string].  Every separator
    the code splits on is a single ASCII character. *)

Module JS.

Definition LF : ascii := "010"%char.
Definition CR : ascii := "013"%char.
Definition SP : ascii := " "%char.
Definition DQ : ascii := "034"%char.
Definition nl : string := String LF EmptyString.
Definition dq : string := String DQ EmptyString.

(** [s.split(sep)] for a one-character separator: the result is never
    empty, and a string without the separator is returned whole. *)
Fixpoint split (sep : ascii) (s : string) : list string :=
  match s with
  | EmptyString => [EmptyString]
  | String c rest =>
      if Ascii.eqb c sep then EmptyString :: split sep rest
      else match split sep rest with
           | [] => [String c EmptyString]
           | w :: ws => String c w :: ws
           end
  end.

(** [xs.join(sep)]. *)
Fixpoint join (sep : string) (xs : list string) : string :=
  match xs with
  | [] => EmptyString
  | [x] => x
  | x :: rest => x +:+ sep +:+ join sep rest
  end.

(** [s.includes(needle)]. *)
Fixpoint includes (needle s : string) : bool :=
  String.prefix needle s ||
  match s with
  | EmptyString => false
  | String _ rest => includes needle rest
  end.

(** [s.replace(c, by)] with a string pattern: only the first occurrence. *)
Fixpoint replace (c : ascii) (by_ : string) (s : string) : string :=
  match s with
  | EmptyString => EmptyString
  | String d rest =>
      if Ascii.eqb d c then by_ +:+ rest else String d (replace c by_ rest)
  end.

(** [s.replaceAll(c, by)]. *)
Fixpoint replaceAll (c : ascii) (by_ : string) (s : string) : string :=
  match s with
  | EmptyString => EmptyString
  | String d rest =>
      if Ascii.eqb d c then by_ +:+ replaceAll c by_ rest
      else String d (replaceAll c by_ rest)
  end.

(** [xs.slice(-1)[0]]: the last element, [undefined] on an empty array. *)
Definition last_elem (xs : list string) : option string := List.last (map Some xs) None.

(** Interpolation [`${v}`] of a value that may be [undefined]. *)
Definition interp (v : option string) : string :=
  match v with Some s => s | None => "undefined" end.

(** [v || dflt] on a possibly undefined string: [undefined] and the
    empty string are falsy. *)
Definition or_else (v : option string) (dflt : string) : string :=
  match v with
  | Some EmptyString | None => dflt
  | Some s => s
  end.

(** Truthiness of a possibly undefined string. *)
Definition truthy (v : option string) : bool :=
  match v with
  | Some EmptyString | None => false
  | Some _ => true
  end.

(** The tail of [s] from its first line terminator on (LF, CR, U+2028
    or U+2029 in UTF-8), where a [.*] stops. *)
Fixpoint from_eol (s : string) : string :=
  match s with
  | EmptyString => EmptyString
  | String c rest =>
      if Ascii.eqb c LF || Ascii.eqb c CR
         || String.prefix (String "226" (String "128" (String "168" EmptyString))) s
         || String.prefix (String "226" (String "128" (String "169" EmptyString))) s
      then s else from_eol rest
  end.

(** [s.replace(re, '')] for the regular expression that matches a slash
    followed by the rest of its line: the first slash and everything up
    to the end of that line are removed. *)
Fixpoint strip_slash (s : string) : string :=
  match s with
  | EmptyString => EmptyString
  | String c rest =>
      if Ascii.eqb c "/" then from_eol rest else String c (strip_slash rest)
  end.

(** The bytes of a text are its UTF-8 encoding, a lone surrogate of the
    JavaScript string being written on three bytes like any other code
    unit of its range.  A continuation byte is [10xxxxxx]. *)
Definition is_continuation (c : ascii) : bool :=
  (128 <=? N_of_ascii c)%N && (N_of_ascii c <? 192)%N.

(** The high surrogate of the character encoded on the four bytes
    [lead c1 c2 c3], on its three bytes. *)
Definition high_surrogate (lead c1 c2 c3 : ascii) : list ascii :=
  let code_point :=
    ((N_of_ascii lead mod 8) * 262144 + (N_of_ascii c1 mod 64) * 4096
     + (N_of_ascii c2 mod 64) * 64 + N_of_ascii c3 mod 64)%N in
  let high := (55296 + (code_point - 65536) / 1024)%N in
  [ascii_of_N 237; ascii_of_N (128 + (high / 64) mod 64); ascii_of_N (128 + high mod 64)].

(** The last UTF-16 code unit removed from a text given by its bytes in
    reverse order.  A character of one, two or three bytes is one code
    unit and goes whole; a character of four bytes is a surrogate pair,
    of which the high surrogate stays. *)
Definition drop_unit_rev (r : list ascii) : list ascii :=
  match r with
  | [] => []
  | b :: r1 =>
      if is_continuation b then
        match r1 with
        | [] => []
        | c :: r2 =>
            if is_continuation c then
              match r2 with
              | [] => r1
              | d :: r3 =>
                  if is_continuation d then
                    match r3 with
                    | lead :: r4 =>
                        if (240 <=? N_of_ascii lead)%N
                        then List.rev (high_surrogate lead d c b) ++ r4
                        else r1
                    | [] => r1
                    end
                  else r3
              end
            else r2
        end
      else r1
  end.

(** [s.slice(0, -1)]: the string without its last code unit. *)
Definition drop_last (s : string) : string :=
  string_of_list_ascii (List.rev (drop_unit_rev (List.rev (list_ascii_of_string s)))).

(** Interpolation of an integer [number]. *)
Definition of_number (n : Z) : string := NilZero.string_of_int (Z.to_int n).

End JS.

(* ===================================================================== *)
(** * Exceptions and mutable state *)
(* ===================================================================== *)

(** What an [await]ed step can throw: a property or method read on
    [undefined]; the rejection of [execAsync] when the child exited with a
    non-zero code; a rejection raised by another collaborator. *)
Inductive js_error : Type :=
| TypeError (reading : string)
| ExecError (code : Z) (stderr : string)
| Rejected (what : string).

Inductive result (A : Type) : Type :=
| Ok (a : A)
| Throw (e : js_error).
Arguments Ok {A} a.
Arguments Throw {A} e.

(** A computation over a mutable store [S].  The store is returned on both
    outcomes: assignments made before a [throw] stay visible. *)
Definition M (S A : Type) : Type := S -> result A * S.

#[global] Instance M_ret {S} : MRet (M S) := fun A a s => (Ok a, s).
#[global] Instance M_bind {S} : MBind (M S) := fun A B f c s =>
  match c s with
  | (Ok a, s') => f a s'
  | (Throw e, s') => (Throw e, s')
  end.

Definition throw {S A} (e : js_error) : M S A := fun s => (Throw e, s).
Definition get {S} : M S S := fun s => (Ok s, s).
Definition modify {S} (f : S -> S) : M S unit := fun s => (Ok tt, f s).

(** [try { c } catch (e) { h e }]. *)
Definition try_catch {S A} (c : M S A) (h : js_error -> M S A) : M S A := fun s =>
  match c s with
  | (Ok a, s') => (Ok a, s')
  | (Throw e, s') => h e s'
  end.

(** A method call [v.m(...)] on a value that may be [undefined]. *)
Definition member {S A} (prop : string) (v : option A) : M S A :=
  match v with
  | Some a => mret a
  | None => throw (TypeError prop)
  end.

(* ===================================================================== *)
(** * The progress handlers installed by [update] *)
(* ===================================================================== *)

(** [update] shares one [progress] object and the flag [isVerifying]
    between the [requestUpdateProgress] handler and the two [once('data')]
    listeners it chains on the child's streams.  A chunk is the text
    [`${data}`] of the buffer the stream delivered. *)

Module UpdateProgress.

(** [InstallProgress].  The fields are declared [string], but [percent]
    and [eta] are assigned array reads that may be [undefined]. *)
Record InstallProgress : Type := mkProgress {
  bytes : option string;
  eta : option string;
  percent : option string
}.

Definition progress0 : InstallProgress :=
  {| bytes := Some "0.00MiB"; eta := Some "00:00:00"; percent := Some "0.00%" |}.

(** The variables captured by the closures, and the [once] listeners
    waiting on the two streams (a listener on [stderr] remembers the
    [appName] of the request that registered it). *)
Record Closure : Type := mkClosure {
  progress : InstallProgress;
  isVerifying : bool;
  stderr_once : list string;
  stdout_once : nat;
  logged : list InstallProgress
}.

Definition closure0 : Closure :=
  {| progress := progress0; isVerifying := false;
     stderr_once := []; stdout_once := 0; logged := [] |}.

Definition set_progress (f : InstallProgress -> InstallProgress) : M Closure unit :=
  modify (fun c => {| progress := f (progress c); isVerifying := isVerifying c;
                      stderr_once := stderr_once c; stdout_once := stdout_once c;
                      logged := logged c |}).
Definition set_isVerifying (b : bool) : M Closure unit :=
  modify (fun c => {| progress := progress c; isVerifying := b;
                      stderr_once := stderr_once c; stdout_once := stdout_once c;
                      logged := logged c |}).
Definition add_stdout_once : M Closure unit :=
  modify (fun c => {| progress := progress c; isVerifying := isVerifying c;
                      stderr_once := stderr_once c; stdout_once := S (stdout_once c);
                      logged := logged c |}).
Definition add_stderr_once (appName : string) : M Closure unit :=
  modify (fun c => {| progress := progress c; isVerifying := isVerifying c;
                      stderr_once := stderr_once c ++ [appName];
                      stdout_once := stdout_once c; logged := logged c |}).
Definition logInfo_progress : M Closure unit :=
  modify (fun c => {| progress := progress c; isVerifying := isVerifying c;
                      stderr_once := stderr_once c; stdout_once := stdout_once c;
                      logged := logged c ++ [progress c] |}).

(** [arr[i].split(sep)]: a [TypeError] when [arr[i]] is [undefined]. *)
Definition split_at (sep : ascii) (arr : list string) (i : nat) : M Closure (list string) :=
  s ← member "split" (arr !! i); mret (JS.split sep s).

(** Listener on [child.stdout] (games.ts, lines 206-211). *)
Definition on_stdout_data (data : string) : M Closure unit :=
  set_progress (fun p =>
    {| bytes := Some (JS.interp (JS.split JS.SP data !! 2%nat) +:+ "MiB");
       eta := eta p; percent := percent p |});;
  field ← split_at ")" (JS.split JS.SP data) 3;
  head ← member "replace" (field !! 0%nat);
  set_progress (fun p =>
    {| bytes := bytes p; eta := eta p; percent := Some (JS.replace "(" "" head) |});;
  set_progress (fun p =>
    {| bytes := bytes p; eta := Some "verifying"; percent := percent p |}).

(** Listener on [child.stderr] (games.ts, lines 202-220), registered by
    a request that carried [appName]. *)
Definition on_stderr_data (this_appName appName data : string) : M Closure unit :=
  set_isVerifying (JS.includes "Game needs to be verified" data);;
  if String.eqb appName this_appName then
    c ← get;
    (if isVerifying c then add_stdout_once else mret tt);;
    percentProgress ← split_at JS.SP (JS.split JS.LF data) 0;
    downloadProgress ← split_at JS.SP (JS.split JS.LF data) 1;
    set_progress (fun p =>
      {| bytes := Some (JS.or_else (downloadProgress !! 5%nat) "0.00" +:+ "MiB");
         eta := eta p; percent := percent p |});;
    set_progress (fun p =>
      {| bytes := bytes p; eta := eta p; percent := percentProgress !! 4%nat |});;
    set_progress (fun p =>
      {| bytes := bytes p; eta := percentProgress !! 10%nat; percent := percent p |})
  else mret tt.

(** The [requestUpdateProgress] handler (lines 201-223): chain one more
    listener on [stderr], log and answer with the current snapshot. *)
Definition requestUpdateProgress (appName : string) : M Closure InstallProgress :=
  add_stderr_once appName;;
  logInfo_progress;;
  c ← get; mret (progress c).

(** A chunk arrives on [child.stderr]: the [once] listeners present at
    that moment run in registration order, each one unregistered just
    before it is called; an exception of one of them leaves [emit] at
    once, with the later listeners still registered. *)
Definition pop_stderr_once : M Closure unit :=
  modify (fun c => {| progress := progress c; isVerifying := isVerifying c;
                      stderr_once := tail (stderr_once c);
                      stdout_once := stdout_once c; logged := logged c |}).

Fixpoint run_stderr_listeners (this_appName : string) (waiting : list string)
    (data : string) : M Closure unit :=
  match waiting with
  | [] => mret tt
  | appName :: rest =>
      pop_stderr_once;;
      on_stderr_data this_appName appName data;;
      run_stderr_listeners this_appName rest data
  end.

Definition emit_stderr (this_appName data : string) : M Closure unit :=
  c ← get; run_stderr_listeners this_appName (stderr_once c) data.

(** The same for a chunk on [child.stdout]. *)
Definition pop_stdout_once : M Closure unit :=
  modify (fun c => {| progress := progress c; isVerifying := isVerifying c;
                      stderr_once := stderr_once c;
                      stdout_once := pred (stdout_once c); logged := logged c |}).

Fixpoint run_stdout_listeners (waiting : nat) (data : string) : M Closure unit :=
  match waiting with
  | O => mret tt
  | S rest => pop_stdout_once;; on_stdout_data data;; run_stdout_listeners rest data
  end.

Definition emit_stdout (data : string) : M Closure unit :=
  c ← get; run_stdout_listeners (stdout_once c) data.

End UpdateProgress.

(* ===================================================================== *)
(** * The world of a [LegendaryGame] instance *)
(* ===================================================================== *)

(** [GameStatus.status]: the string literals the class assigns. *)
Inductive Status : Type :=
| done | moving | updating | installing | uninstalling | repairing
| launching | playing.

(** The at-rest value: the constructor initialises [status] to ['done']
    and the class has no separate ['idle']. *)
Definition at_rest (s : Status) : bool :=
  match s with done => true | _ => false end.

(** [process.platform]. *)
Inductive Platform : Type := linux | win32 | darwin | other_platform.

(** Resolution value of [execAsync]. *)
Record ExecOutput : Type := mkOutput { stdout : string; stderr : string }.

(** How a child process ended. *)
Record ProcExit : Type := mkExit { exit_code : Z; exit_stdout : string; exit_stderr : string }.

(** Calls that leave the instance, in program order. *)
Inductive event : Type :=
| EvInstallState (appName : string) (state : bool)
| EvChangeGameInstallPath (appName newPath : string)
| EvExec (command : string)
| EvSpawn (bin : string) (args : list string)
| EvIpcHandle (channel : string)
| EvAddDesktopShortcut (appName : string)
| EvRemoveDesktopShortcut (appName : string)
| EvErrorHandler (error : js_error) (logPath : string)
| EvLogInfo (message : list string)
| EvLogWarning (message : list string)
| EvLogError (error : js_error)
| EvIsOnline
| EvHttp (method url : string)
| EvDiscordUpdate (title os : string)
| EvDiscordDisconnect
| EvDXVKInstall (prefix : string)
| EvShowWindow.

(** The mutable objects a method of [LegendaryGame.get(appName)] reaches:
    [this.state.status], the records of [LegendaryLibrary], the channels
    registered on [ipcMain], and the trace of outgoing calls. *)
Record World : Type := mkWorld {
  status : Status;
  installed : gmap string bool;
  install_path : gmap string string;
  ipc_channels : list string;
  trace : list event
}.

Definition set_status (s : Status) : M World unit :=
  modify (fun w => {| status := s; installed := installed w;
                      install_path := install_path w;
                      ipc_channels := ipc_channels w; trace := trace w |}).

Definition emit (e : event) : M World unit :=
  modify (fun w => {| status := status w; installed := installed w;
                      install_path := install_path w;
                      ipc_channels := ipc_channels w; trace := trace w ++ [e] |}).

(** Modelled from the spec: [LegendaryLibrary.installState] is not among
    the sources; it writes the "persistent installed-state" of one entity. *)
Definition installState (appName : string) (state : bool) : M World unit :=
  emit (EvInstallState appName state);;
  modify (fun w => {| status := status w;
                      installed := <[appName := state]> (installed w);
                      install_path := install_path w;
                      ipc_channels := ipc_channels w; trace := trace w |}).

(** Modelled from the spec: [LegendaryLibrary.changeGameInstallPath] is not
    among the sources; it writes the "persisted install-path record". *)
Definition changeGameInstallPath (appName newPath : string) : M World unit :=
  emit (EvChangeGameInstallPath appName newPath);;
  modify (fun w => {| status := status w; installed := installed w;
                      install_path := <[appName := newPath]> (install_path w);
                      ipc_channels := ipc_channels w; trace := trace w |}).

(** [ipcMain.handle(channel, _)]: Electron refuses a second handler for a
    channel. *)
Definition ipcMain_handle (channel : string) : M World unit :=
  w ← get;
  if bool_decide (channel ∈ ipc_channels w)
  then throw (Rejected "Attempted to register a second handler")
  else
    emit (EvIpcHandle channel);;
    modify (fun w => {| status := status w; installed := installed w;
                        install_path := install_path w;
                        ipc_channels := channel :: ipc_channels w; trace := trace w |}).

(** The part of [GameInfo] the class reads. *)
Record GameInfo : Type := mkInfo {
  title : string;
  info_install_path : option string   (** [install.install_path] *)
}.

(** [wineVersion] of the game settings. *)
Record WineInstallation : Type := mkWine { bin : string; name : string }.

(** The fields [launch] destructures from [getSettings()]. *)
Record GameSettings : Type := mkSettings {
  winePrefix : string;
  wineVersion : WineInstallation;
  otherOptions : option string;
  useGameMode : bool;
  showFps : bool;
  nvidiaPrime : bool;
  launcherArgs : option string;
  showMangohud : bool;
  audioFix : bool;
  autoInstallDxvk : bool;
  offlineMode : bool
}.

(** Body of the answer of the store-content API, as far as [getExtraInfo]
    walks it.  Absent properties and array holes are [None]. *)
Record SystemReq : Type := mkSystem { details : option (list (option string)) }.
Record Requirements : Type := mkReqs { systems : option (list SystemReq) }.
Record PageData : Type := mkPageData {
  data_about : option (list (string * string));
  requirements : option Requirements
}.
Record Page : Type := mkPage { page_type : string; page_data : option PageData }.

(** [ExtraInfo]. *)
Record ExtraInfo : Type := mkExtra {
  extra_about : option (list (string * string));
  reqs : option (list (option string))
}.

(** Constants of [../constants], the settings providers and the outside
    world, fixed for the run of one method. *)
Record Env : Type := mkEnv {
  legendaryBin : string;
  heroicGamesConfigPath : string;
  home : string;
  isWindows : bool;
  platform : Platform;
  (** [GlobalConfig] *)
  maxWorkers : Z;
  discordRPC : bool;
  language : string;
  (** [GameConfig.get(appName)] *)
  gameSettings : GameSettings;
  (** [LegendaryLibrary]: the title of an entity *)
  titleOf : string -> string;
  (** [existsSync] *)
  existsSync : string -> bool;
  (** what the shell does with a command line *)
  run : string -> ProcExit;
  (** [DXVK.install] resolves *)
  dxvk_ok : bool;
  (** [isOnline()] *)
  online : bool;
  (** the product slugs the GraphQL endpoint lists for a namespace; [None]
      when the request or the walk to [catalogOffers.elements] fails *)
  catalogOffers : string -> option (list (option string));
  (** the pages served for a URL; [None] when the request fails or the
      answer has no [pages] *)
  content : string -> option (list Page)
}.

(* ===================================================================== *)
(** * [LegendaryGame] *)
(* ===================================================================== *)

(** What [install] resolves with: the value of [execAsync], or the value
    of [errorHandler] once the failure has been handled. *)
Inductive InstallResult (H : Type) : Type :=
| Resolved (v : ExecOutput)
| Handled (h : H).
Arguments Resolved {H} v.
Arguments Handled {H} h.

Section LegendaryGame.

(** [errorHandler] of [../utils] is not among the sources: it is a
    parameter, called with the error and the log path. *)
Variable HandlerValue : Type.
Variable errorHandler : js_error -> string -> result HandlerValue.

Variable env : Env.
Variable appName : string.

(** Modelled from the spec: [execAsync] of [../utils] is not among the
    sources.  It runs the command line in a child process and settles
    when the child has exited: it resolves with the captured output on
    exit code zero and rejects on any other code. *)
Definition execAsync (command : string) : M World ExecOutput :=
  emit (EvExec command);;
  let r := run env command in
  if (exit_code r =? 0)%Z
  then mret {| stdout := exit_stdout r; stderr := exit_stderr r |}
  else throw (ExecError (exit_code r) (exit_stderr r)).

(** [getGameInfo()]: the record of [this.appName] in the library. *)
Definition getGameInfo : M World GameInfo :=
  w ← get;
  mret {| title := titleOf env appName;
          info_install_path := install_path w !! appName |}.

(** [this.addDesktopShortcut()] and [this.removeDesktopShortcut()] are
    called without [await]: the caller goes on at once and never sees
    how they end. *)
Definition addDesktopShortcut : M World unit := emit (EvAddDesktopShortcut appName).
Definition removeDesktopShortcut : M World unit := emit (EvRemoveDesktopShortcut appName).

Definition logInfo (message : list string) : M World unit := emit (EvLogInfo message).
Definition logWarning (message : list string) : M World unit := emit (EvLogWarning message).
Definition logError (error : js_error) : M World unit := emit (EvLogError error).

Definition call_errorHandler (error : js_error) (logPath : string) : M World HandlerValue :=
  emit (EvErrorHandler error logPath);;
  match errorHandler error logPath with
  | Ok v => mret v
  | Throw e => throw e
  end.

(** ** moveInstall (lines 166-179) *)

Definition moveInstall (newInstallPath : string) : M World string :=
  set_status moving;;
  info ← getGameInfo;
  installpath ← member "split" (info_install_path info);
  let newInstallPath :=
    newInstallPath +:+ "/" +:+ JS.interp (JS.last_elem (JS.split "/" installpath)) in
  try_catch
    (execAsync ("mv -f " +:+ installpath +:+ " '" +:+ newInstallPath +:+ "'");;
     changeGameInstallPath appName newInstallPath)
    logError;;
  set_status done;;
  addDesktopShortcut;;
  mret newInstallPath.

(** ** update (lines 187-229) *)

Definition update_command : list string :=
  let workers :=
    if (maxWorkers env =? 0)%Z then ""
    else " --max-workers " +:+ JS.of_number (maxWorkers env) in
  JS.split JS.SP ("update " +:+ appName +:+ workers +:+ " -y").

(** The promise resolves from the child's ['exit'] event, whatever the
    exit code. *)
Definition update : M World string :=
  set_status updating;;
  emit (EvSpawn (legendaryBin env) update_command);;
  ipcMain_handle "requestUpdateProgress";;
  logInfo ["child exiting"];;
  mret "game updated".

(** ** install (lines 320-346) *)

Definition logPath : string :=
  JS.dq +:+ heroicGamesConfigPath env +:+ appName +:+ ".log" +:+ JS.dq.

Definition writeLog : string :=
  if isWindows env then "2>&1 > " +:+ logPath else "|& tee " +:+ logPath.

Definition install_command (path : string) : string :=
  let workers :=
    if (maxWorkers env =? 0)%Z then ""
    else "--max-workers " +:+ JS.of_number (maxWorkers env) in
  legendaryBin env +:+ " install " +:+ appName +:+ " --base-path " +:+ path
    +:+ " " +:+ workers +:+ " -y " +:+ writeLog.

Definition install (path : string) : M World (InstallResult HandlerValue) :=
  set_status installing;;
  let command := install_command path in
  logInfo ["Installing " +:+ appName +:+ " with:"; command];;
  try_catch
    (installState appName true;;
     v ← execAsync command;
     set_status done;;
     addDesktopShortcut;;
     mret (Resolved v))
    (fun error =>
       installState appName false;;
       v ← call_errorHandler error logPath;
       set_status done;;
       mret (Handled v)).

(** ** uninstall (lines 348-358) *)

Definition uninstall_command : string :=
  legendaryBin env +:+ " uninstall " +:+ appName +:+ " -y".

Definition uninstall : M World ExecOutput :=
  set_status uninstalling;;
  let command := uninstall_command in
  logInfo ["Uninstalling " +:+ appName +:+ " with:"; command];;
  installState appName false;;
  v ← execAsync command;
  set_status done;;
  removeDesktopShortcut;;
  mret v.

(** ** repair (lines 366-381) *)

Definition repair_command : string :=
  let workers :=
    if negb (maxWorkers env =? 0)%Z    (* truthiness of a number *)
    then "--max-workers " +:+ JS.of_number (maxWorkers env) else "" in
  legendaryBin env +:+ " repair " +:+ appName +:+ " " +:+ workers
    +:+ " -y " +:+ writeLog.

Definition repair : M World ExecOutput :=
  set_status repairing;;
  let command := repair_command in
  logInfo ["Repairing " +:+ appName +:+ " with:"; command];;
  v ← execAsync command;
  set_status done;;
  mret v.

(** ** import (lines 383-390) *)

Definition import (path : string) : M World ExecOutput :=
  set_status installing;;
  let command :=
    legendaryBin env +:+ " import-game " +:+ appName +:+ " '" +:+ path +:+ "'" in
  v ← execAsync command;
  set_status done;;
  mret v.

End LegendaryGame.

Section LaunchAndStore.

Variable env : Env.
Variable appName : string.

(** ** launch (lines 412-552) *)

Definition os_name (p : Platform) : string :=
  match p with
  | linux => "Linux"
  | win32 => "Windows"
  | darwin => "MacOS"
  | other_platform => "Unknown OS"
  end.

(** Modelled from the spec: [DXVK.install] of [../dxvk] is not among the
    sources; it is awaited and may reject. *)
Definition DXVK_install (prefix : string) : M World unit :=
  emit (EvDXVKInstall prefix);;
  if dxvk_ok env then mret tt else throw (Rejected "DXVK.install").

Definition launch : M World ExecOutput :=
  set_status launching;;
  let settings := gameSettings env in
  let winePrefix := winePrefix settings in
  let wineVersion := wineVersion settings in
  let launcherArgs := default "" (launcherArgs settings) in
  let runOffline := if offlineMode settings then "--offline" else "" in
  (if discordRPC env then
     gameInfo ← getGameInfo env appName;
     emit (EvDiscordUpdate (title gameInfo) ("via Heroic on " +:+ os_name (platform env)))
   else mret tt);;
  if isWindows env then
    let command :=
      legendaryBin env +:+ " launch " +:+ appName +:+ " " +:+ runOffline
        +:+ " " +:+ launcherArgs in
    logInfo [JS.nl +:+ " Launch Command:"; command];;
    v ← execAsync env command;
    logInfo ["Stopping Discord Rich Presence if running..."];;
    emit EvDiscordDisconnect;;
    logInfo ["Stopped Discord Rich Presence."];;
    mret v
  else
    let fixedWinePrefix := JS.replace "~" (home env) winePrefix in
    let wineCommand := "--wine " +:+ bin wineVersion in
    let prefix := "--wine-prefix '" +:+ JS.replaceAll "'" "" fixedWinePrefix +:+ "'" in
    let isProton :=
      JS.includes "Proton" (name wineVersion) || JS.includes "Steam" (name wineVersion) in
    let prefix := if isProton then "" else prefix in
    let options := [
      (* audio *) if audioFix settings then "PULSE_LATENCY_MSEC=60" else "";
      (* fps *) if showFps settings then "DXVK_HUD=fps" else "";
      (* other *) default "" (otherOptions settings);
      (* prime *) if nvidiaPrime settings
                  then "__NV_PRIME_RENDER_OFFLOAD=1 __GLX_VENDOR_LIBRARY_NAME=nvidia" else "";
      (* proton *) if isProton
                   then "STEAM_COMPAT_CLIENT_INSTALL_PATH=" +:+ home env
                          +:+ "/.steam/steam STEAM_COMPAT_DATA_PATH='"
                          +:+ JS.replace "~" (home env) (JS.replaceAll "'" "" winePrefix)
                          +:+ "'"
                   else "";
      (* showMangohud *) if showMangohud settings then "MANGOHUD=1" else "" ] in
    let envVars := JS.join " " options in
    (if isProton then
       logWarning [JS.nl +:+ " You are using Proton, this can lead to some bugs,"
                     +:+ JS.nl
                     +:+ "              please do not open issues with bugs related with games";
                   name wineVersion]
     else mret tt);;
    (if isProton && negb (existsSync env fixedWinePrefix) then
       execAsync env ("mkdir '" +:+ fixedWinePrefix +:+ "' -p");; mret tt
     else mret tt);;
    (if negb isProton && autoInstallDxvk settings then DXVK_install winePrefix
     else mret tt);;
    let wineCommand :=
      if negb (String.eqb (name wineVersion) "Wine Default") then
        if isProton
        then "--no-wine --wrapper " +:+ JS.dq +:+ bin wineVersion +:+ " run" +:+ JS.dq
        else "--wine " +:+ bin wineVersion
      else wineCommand in
    gameMode ← try_catch
      (out ← execAsync env "which gamemoderun";
       mret (JS.split JS.LF (stdout out) !! 0%nat))
      (fun _ => logWarning ["GameMode not installed"];; mret None);
    let runWithGameMode :=
      if useGameMode settings && JS.truthy gameMode then JS.interp gameMode else "" in
    let command :=
      envVars +:+ " " +:+ runWithGameMode +:+ " " +:+ legendaryBin env +:+ " launch "
        +:+ appName +:+ " " +:+ runOffline +:+ " " +:+ wineCommand +:+ " " +:+ prefix
        +:+ " " +:+ launcherArgs in
    logInfo [JS.nl +:+ " Launch Command:"; command];;
    v ← execAsync env command;
    set_status playing;;
    emit EvShowWindow;;
    logInfo ["Stopping Discord Rich Presence if running..."];;
    emit EvDiscordDisconnect;;
    logInfo ["Stopped Discord Rich Presence."];;
    mret v.

(** ** getExtraInfo (lines 75-138) *)

Definition emptyExtraInfo : ExtraInfo := {| extra_about := Some []; reqs := Some [] |}.

Definition isOnline : M World bool := emit EvIsOnline;; mret (online env).

(** [getProductSlug]: called outside the [try] of [getExtraInfo], so a
    failure of the request rejects the whole call. *)
Definition getProductSlug (namespace : string) : M World string :=
  emit (EvHttp "POST" "https://www.epicgames.com/graphql");;
  elements ← member "data" (catalogOffers env namespace);
  match List.find JS.truthy elements with
  | Some productSlug => mret (JS.strip_slash (JS.interp productSlug))
  | None => mret appName
  end.

(** [delete pages[0].data.requirements.systems[0].details[0]]: every
    link of the chain must exist; the first detail becomes a hole. *)
Definition delete_first_detail (pages : list Page) : M World (list Page) :=
  page0 ← member "data" (pages !! 0%nat);
  data ← member "requirements" (page_data page0);
  requirements ← member "systems" (requirements data);
  systems ← member "0" (systems requirements);
  system0 ← member "details" (systems !! 0%nat);
  details ← member "0" (details system0);
  let details := match details with [] => [] | _ :: rest => None :: rest end in
  let system0 := {| details := Some details |} in
  let requirements := {| systems := Some (<[0%nat := system0]> systems) |} in
  let data := {| data_about := data_about data; requirements := Some requirements |} in
  mret (<[0%nat := {| page_type := page_type page0; page_data := Some data |}]> pages).

Definition getExtraInfo (namespace : option string) : M World ExtraInfo :=
  up ← isOnline;
  if negb up then mret emptyExtraInfo
  else
    let lang := language env in
    let lang := if String.eqb lang "pt" then "pt-BR" else lang in
    epicUrl ←
      (if JS.truthy namespace then
         productSlug ← getProductSlug (JS.interp namespace);
         mret ("https://store-content.ak.epicgames.com/api/" +:+ lang
                 +:+ "/content/products/" +:+ productSlug)
       else
         mret ("https://store-content.ak.epicgames.com/api/" +:+ lang
                 +:+ "/content/products/" +:+ appName));
    try_catch
      (emit (EvHttp "GET" epicUrl);;
       pages ← member "pages" (content env epicUrl);
       pages ← delete_first_detail pages;
       about ← member "data"
         (List.find (fun e => String.eqb (page_type e) "productHome") pages);
       data ← member "about" (page_data about);
       requirements ← member "systems" (requirements data);
       systems ← member "0" (systems requirements);
       system0 ← member "details" (systems !! 0%nat);
       mret {| extra_about := data_about data; reqs := details system0 |})
      (fun _ => mret emptyExtraInfo).

End LaunchAndStore.

(* ===================================================================== *)
(** * The tool manager's IPC handlers *)
(* ===================================================================== *)

Module ToolManager.

(** [ToolVersionInfo], as far as the handler reads it. *)
Record ToolVersionInfo : Type := mkRelease { version : string; download : string }.

(** [State] of [common/types/toolmanager]. *)
Inductive State : Type := idle | downloading | unzipping.

(** What [installToolVersion] resolves with. *)
Inductive InstallOutcome : Type := success | error | abort.

(** An [AbortController]; [signal_aborted] is [signal.aborted]. *)
Record AbortController : Type := mkController { signal_aborted : bool }.

Section Handlers.

(** [ProgressInfo] carries floating-point figures the handler only
    forwards. *)
Variable ProgressInfo : Type.

(** Calls into the abort-handler module, in program order. *)
Inductive registry_call : Type :=
| CreateAbortController (id : string)
| DeleteAbortController (id : string).

(** The registry of abort controllers, the calls made to it, and the
    messages sent to the window: channel, state, progress. *)
Record Backend : Type := mkBackend {
  abortControllers : gmap string AbortController;
  registry_calls : list registry_call;
  sent : list (string * State * option ProgressInfo)
}.

Definition log_call (c : registry_call) : M Backend unit :=
  modify (fun b => {| abortControllers := abortControllers b;
                      registry_calls := registry_calls b ++ [c];
                      sent := sent b |}).

(** Modelled from the spec: [createAbortController] of
    [../utils/aborthandler/aborthandler] is not among the sources.
    "Exactly one handle may exist per key at a time; registering a
    second handle for a key that already has one is a programming error
    (must fail fast)". *)
Definition createAbortController (id : string) : M Backend AbortController :=
  log_call (CreateAbortController id);;
  b ← get;
  match abortControllers b !! id with
  | Some _ => throw (Rejected "AlreadyRegistered")
  | None =>
      let controller := {| signal_aborted := false |} in
      modify (fun b => {| abortControllers := <[id := controller]> (abortControllers b);
                          registry_calls := registry_calls b;
                          sent := sent b |});;
      mret controller
  end.

(** Modelled from the spec: [deleteAbortController] of the same module;
    the registry's [unregister(key)]. *)
Definition deleteAbortController (id : string) : M Backend unit :=
  log_call (DeleteAbortController id);;
  modify (fun b => {| abortControllers := delete id (abortControllers b);
                      registry_calls := registry_calls b;
                      sent := sent b |}).

(** [installToolVersion] of [./utils] is not among the sources: a
    parameter.  It receives the release, the [onProgress] callback and
    the signal, and may do anything to the backend while it runs. *)
Variable installToolVersion :
  ToolVersionInfo -> (State -> option ProgressInfo -> M Backend unit) ->
  AbortController -> M Backend InstallOutcome.

(** [onProgress] (lines 16-21). *)
Definition onProgress (release : ToolVersionInfo)
    (state : State) (progress : option ProgressInfo) : M Backend unit :=
  modify (fun b => {| abortControllers := abortControllers b;
                      registry_calls := registry_calls b;
                      sent := sent b ++
                        [("progressOfToolManager" +:+ version release, state, progress)] |}).

(** Handler of ['installToolVersion'] (lines 14-29). *)
Definition installToolVersion_handler (release : ToolVersionInfo)
  : M Backend InstallOutcome :=
  controller ← createAbortController (version release);
  result ← installToolVersion release (onProgress release) controller;
  deleteAbortController (version release);;
  mret result.

End Handlers.

End ToolManager.


(* ===================================================================== *)
(** * The keyed registry of [LegendaryGame] instances *)
(* ===================================================================== *)

Module GameRegistry.

(** An instance as its constructor builds it (lines 39-46): [appName] and
    [state = { appName, status }]. *)
Record LegendaryGame : Type := mkGame {
  appName : string;
  state_appName : string;
  state_status : Status
}.

Definition new_LegendaryGame (appName : string) : LegendaryGame :=
  {| appName := appName; state_appName := appName; state_status := done |}.

(** [LegendaryGame.get] (lines 48-53) on the static map [instances].  The
    map holds each instance with the state it has at that moment. *)
Definition get (appName : string)
  : M (gmap string LegendaryGame) (option LegendaryGame) :=
  instances ← get;
  (match instances !! appName with
   | None => modify (fun m => <[appName := new_LegendaryGame appName]> m)
   | Some _ => mret tt
   end);;
  instances ← get;
  mret (instances !! appName).

End GameRegistry.

(* ===================================================================== *)
(** * Pending updates *)
(* ===================================================================== *)

Module Updates.

Section Updates.

(** [LegendaryUser.isLoggedIn()] and
    [LegendaryLibrary.get().listUpdateableGames()] are not among the
    sources: parameters. *)
Variable isLoggedIn : bool.
Variable listUpdateableGames : list string.

(** [checkGameUpdates] (lines 58-64). *)
Definition checkGameUpdates : list string :=
  if negb isLoggedIn then [] else listUpdateableGames.

(** [hasUpdate] (lines 155-157): [includes] compares with [===]. *)
Definition hasUpdate (appName : string) : bool :=
  existsb (String.eqb appName) listUpdateableGames.

End Updates.

End Updates.

(* ===================================================================== *)
(** * Desktop integration, save sync and stop *)
(* ===================================================================== *)

Module Desktop.

(** Calls that leave the instance, in program order.  [WriteFile],
    [Unlink] and [Spawn] carry the message their completion callback
    logs; the callbacks take no other action and ignore the error they
    are handed. *)
Inductive call : Type :=
| MkdirSync (path : string) (recursive : bool)
| Exec (command : string)
| Spawn (bin : string) (args : list string) (on_exit : list string)
| WriteFile (path data : string) (on_done : list string)
| Unlink (path : string) (on_done : list string)
| LogInfo (message : list string)
| LogError (message : list string) (error : option js_error).

(** The record [getGameInfo()] answers with, as far as these methods
    read it. *)
Record GameInfo : Type := mkInfo {
  title : string;
  app_name : string;
  art_square : string
}.

(** [heroicIconFolder] of [../constants], the two shortcut switches of
    [GlobalConfig], the library record of the entity (the library is taken
    to know it), and whether [mkdirSync] can create a folder. *)
Record Config : Type := mkConfig {
  heroicIconFolder : string;
  enableDesktopShortcutsOnDesktop : bool;
  enableDesktopShortcutsOnStartMenu : bool;
  gameInfo : GameInfo;
  mkdirSync_ok : string -> bool
}.

Section Desktop.

Variable env : Env.
Variable cfg : Config.
Variable appName : string.

Definition out (c : call) : M (list call) unit := modify (fun cs => cs ++ [c]).

(** Modelled from the spec: [execAsync] of [../utils], as for the
    lifecycle operations: it resolves on exit code zero and rejects on
    any other code. *)
Definition execAsync (command : string) : M (list call) ExecOutput :=
  out (Exec command);;
  let r := run env command in
  if (exit_code r =? 0)%Z
  then mret {| stdout := exit_stdout r; stderr := exit_stderr r |}
  else throw (ExecError (exit_code r) (exit_stderr r)).

Definition getGameInfo : M (list call) GameInfo := mret (gameInfo cfg).

(** [mkdirSync(path, { recursive })]: a synchronous call that throws when
    the folder cannot be created. *)
Definition mkdirSync (path : string) (recursive : bool) : M (list call) unit :=
  out (MkdirSync path recursive);;
  if mkdirSync_ok cfg path then mret tt else throw (Rejected "mkdirSync").

(** ** getIcon (lines 231-247) *)

Definition getIcon (appName : string) : M (list call) string :=
  (if negb (existsSync env (heroicIconFolder cfg))
   then mkdirSync (heroicIconFolder cfg) false else mret tt);;
  gameInfo ← getGameInfo;
  let image := JS.replaceAll " " "_" (art_square gameInfo) in
  let ext := List.rev (JS.split "." image) !! 0%nat in
  let ext :=
    if negb (bool_decide (ext = Some "jpg")) && negb (bool_decide (ext = Some "png"))
    then "jpg" else JS.interp ext in
  let icon := heroicIconFolder cfg +:+ "/" +:+ appName +:+ "." +:+ ext in
  (if negb (existsSync env icon)
   then execAsync ("curl '" +:+ image +:+ "' --output " +:+ icon);; mret tt
   else mret tt);;
  mret icon.

(** ** addDesktopShortcut (lines 256-296) *)

Definition shortcut_text (gameInfo : GameInfo) (icon : string) : string :=
  "[Desktop Entry]" +:+ JS.nl +:+
  "Name=" +:+ title gameInfo +:+ JS.nl +:+
  "Exec=xdg-open heroic://launch/" +:+ app_name gameInfo +:+ JS.nl +:+
  "Terminal=false" +:+ JS.nl +:+
  "Type=Application" +:+ JS.nl +:+
  "MimeType=x-scheme-handler/heroic;" +:+ JS.nl +:+
  "Icon=" +:+ icon +:+ JS.nl +:+
  "Categories=Game;" +:+ JS.nl.

(** [fromMenu] is an optional argument: [None] is [undefined]. *)
Definition addDesktopShortcut (fromMenu : option bool) : M (list call) unit :=
  match platform env with
  | linux =>
      gameInfo ← getGameInfo;
      let desktopFolder := home env +:+ "/Desktop/" +:+ title gameInfo +:+ ".desktop" in
      let applicationsFolder :=
        home env +:+ "/.local/share/applications/" +:+ title gameInfo +:+ ".desktop" in
      icon ← getIcon (app_name gameInfo);
      (* the [switch] on the platform: only its ['linux'] case is reachable *)
      let shortcut := shortcut_text gameInfo icon in
      let enabledInDesktop := enableDesktopShortcutsOnDesktop cfg in
      let enabledInStartMenu := enableDesktopShortcutsOnStartMenu cfg in
      (if enabledInDesktop || default false fromMenu
       then out (WriteFile desktopFolder shortcut ["Shortcut saved on " +:+ desktopFolder])
       else mret tt);;
      (if enabledInStartMenu || default false fromMenu
       then out (WriteFile applicationsFolder shortcut
                   ["Shortcut saved on " +:+ applicationsFolder])
       else mret tt)
  | _ => mret tt
  end.

(** ** removeDesktopShortcut (lines 303-312) *)

Definition removeDesktopShortcut : M (list call) unit :=
  match platform env with
  | linux =>
      gameInfo ← getGameInfo;
      let desktopFile := home env +:+ "/Desktop/" +:+ title gameInfo +:+ ".desktop" in
      let applicationsFile :=
        home env +:+ "/.local/share/applications/" +:+ title gameInfo +:+ ".desktop" in
      out (Unlink desktopFile ["Desktop shortcut removed"]);;
      out (Unlink applicationsFile ["Applications shortcut removed"])
  | _ => mret tt
  end.

(** ** syncSaves (lines 398-410) *)

Definition fixedPath (path : string) : string :=
  if isWindows env then JS.drop_last (JS.replaceAll "'" "" path)
  else JS.replaceAll "'" "" path.

Definition syncSaves_command (arg path : string) : string :=
  legendaryBin env +:+ " sync-saves " +:+ arg +:+ " --save-path " +:+ JS.dq
    +:+ fixedPath path +:+ JS.dq +:+ " " +:+ appName +:+ " -y".

Definition syncSaves (arg path : string) : M (list call) ExecOutput :=
  let command := syncSaves_command arg path in
  let legendarySavesPath := home env +:+ "/legendary/.saves" in
  (if negb (existsSync env legendarySavesPath)
   then mkdirSync legendarySavesPath true else mret tt);;
  out (LogInfo [JS.nl +:+ " syncing saves for "; appName]);;
  execAsync command.

(** ** stop (lines 554-575) *)

Definition stop : M (list call) unit :=
  let pattern := match platform env with linux => appName | _ => "legendary" end in
  out (LogInfo ["killing"; pattern]);;
  match platform env with
  | win32 =>
      try_catch
        (execAsync ("Stop-Process -name  " +:+ pattern);;
         out (LogInfo [pattern +:+ " killed"]))
        (fun error =>
           out (LogError ["not possible to kill " +:+ pattern] (Some error)))
  | _ => out (Spawn "pkill" ["-f"; pattern] [pattern +:+ " killed"])
  end.

End Desktop.

End Desktop.

(* ===================================================================== *)
(** * The other handlers of the tool manager *)
(* ===================================================================== *)

Module ToolManagerIpc.

Section Refresh.

(** The main process as far as the handler reaches it: an arbitrary
    store, and the error log on it. *)
Variable Store : Type.
Variable logError : js_error -> Store -> Store.

(** [updateToolVersionInfos] of [./utils] is not among the sources: a
    parameter. *)
Variable updateToolVersionInfos : option bool -> M Store unit.

(** Handler of ['refreshToolVersionInfo'] (lines 31-39). *)
Definition refreshToolVersionInfo_handler (fetch : option bool) : M Store unit :=
  try_catch
    (updateToolVersionInfos fetch;; mret tt)
    (fun error => modify (logError error);; mret tt).

(** [removeToolVersion] of [./utils] is not among the sources: a
    parameter. *)
Variable removeToolVersion : ToolManager.ToolVersionInfo -> M Store bool.

(** Handler of ['removeToolVersion'] (lines 41-43). *)
Definition removeToolVersion_handler (release : ToolManager.ToolVersionInfo)
  : M Store bool :=
  removeToolVersion release.

End Refresh.

End ToolManagerIpc.

(* ===================================================================== *)
(** * The tool item of the tool manager screen *)
(* ===================================================================== *)

Module ToolItem.

(** An element of the array [formattedTime] is built from: a number or a
    string. *)
Inductive cell : Type :=
| Num (n : N)
| Str (s : string).

(** [Boolean(v)]. *)
Definition truthy (v : cell) : bool :=
  match v with
  | Num n => negb (n =? 0)%N
  | Str s => negb (String.eqb s "")
  end.

(** [String(v)], as [join] applies it. *)
Definition to_string (v : cell) : string :=
  match v with
  | Num n => JS.of_number (Z.of_N n)
  | Str s => s
  end.

(** The time display of [getProgressElement] (lines 199-212).  [eta] is a
    whole number of seconds; on such values below 2^53 the operations on
    doubles ([/], [Math.floor], [%]) are exact. *)
Definition formattedTime (eta : N) : string :=
  let totalSeconds := eta in
  let hours := (totalSeconds / 3600)%N in
  let totalSeconds := (totalSeconds mod 3600)%N in
  let minutes := (totalSeconds / 60)%N in
  let seconds := (totalSeconds mod 60)%N in
  JS.join ":"
    (map to_string
       (List.filter truthy
          [ Num hours;
            if (9 <? minutes)%N then Num minutes
            else if truthy (Num hours) then Str ("0" +:+ to_string (Num minutes))
            else if truthy (Num minutes) then Num minutes else Str "0";
            if (9 <? seconds)%N then Num seconds
            else Str ("0" +:+ to_string (Num seconds)) ])).

(** What a click on the main button does. *)
Inductive Action : Type := remove | abort | install.

Inductive Icon : Type := StopIcon | DownIcon.

(** What the size column shows. *)
Inductive StatusCell : Type :=
| DiskSize | ProgressElement | Unzipping | DownloadSize.

Section Component.

(** Props and state of one rendered item. *)
Variable version : string.
Variable isInstalled : bool.
Variable state : ToolManager.State.

Definition isDownloading : bool :=
  match state with ToolManager.downloading => true | _ => false end.

Definition unZipping : bool :=
  match state with ToolManager.unzipping => true | _ => false end.

(** [renderStatus] (lines 123-137). *)
Definition renderStatus : StatusCell :=
  if isInstalled then DiskSize
  else if isDownloading then ProgressElement
  else if unZipping then Unzipping
  else DownloadSize.

(** [handleMainActionClick] (lines 141-149). *)
Definition handleMainActionClick : Action :=
  if isInstalled then remove
  else if isDownloading || unZipping then abort
  else install.

(** [mainActionIcon] (lines 151-157). *)
Definition mainActionIcon : Icon :=
  if isInstalled || isDownloading || unZipping then StopIcon else DownIcon.

(** [mainIconTitle] (lines 159-167). *)
Definition mainIconTitle : string :=
  if isInstalled then "Uninstall " +:+ version
  else if isDownloading || unZipping then "Cancel " +:+ version +:+ " installation"
  else "Install " +:+ version.

End Component.

End ToolItem.
(* ===================================================================== *)
(** * Vocabulary of the statements *)
(* ===================================================================== *)

(** [s] holds no character [c]. *)
Definition free_of (c : ascii) (s : string) : Prop :=
  JS.includes (String c EmptyString) s = false.

(** [seg] is the part of [path] after its last slash (the whole of
    [path] when it has none). *)
Definition last_segment (seg path : string) : Prop :=
  free_of "/" seg /\ (path = seg \/ exists dir, path = dir +:+ String "/" seg).


(** The entity is busy: its status is not the at-rest value. *)
Definition busy (w : World) : Prop := at_rest (status w) = false.

(** [c] keeps [P] true of the world, whether it returns or throws. *)
Definition maintains {A} (P : World -> Prop) (c : M World A) : Prop :=
  forall w, P w -> P (snd (c w)).

(** The events a computation adds to a trace that was [before]. *)
Definition added (before : list event) (w : World) : list event :=
  drop (length before) (trace w).

(** ** Sample inputs *)

Definition world0 : World :=
  {| status := done; installed := ∅; install_path := ∅;
     ipc_channels := []; trace := [] |}.

Definition settings0 : GameSettings :=
  {| winePrefix := "~/.wine";
     wineVersion := {| bin := "/usr/bin/wine"; name := "Wine Default" |};
     otherOptions := None; useGameMode := false; showFps := false;
     nvidiaPrime := false; launcherArgs := None; showMangohud := false;
     audioFix := false; autoInstallDxvk := false; offlineMode := false |}.

(** A Linux host on which every child process exits with [code]. *)
Definition env0 (code : Z) (workers : Z) (up : bool) : Env :=
  {| legendaryBin := "/opt/legendary"; heroicGamesConfigPath := "/cfg/";
     home := "/home/u"; isWindows := false; platform := linux;
     maxWorkers := workers; discordRPC := false; language := "en";
     gameSettings := settings0; titleOf := fun a => a;
     existsSync := fun _ => true;
     run := fun _ => {| exit_code := code; exit_stdout := ""; exit_stderr := "" |};
     dxvk_ok := true; online := up;
     catalogOffers := fun _ => None; content := fun _ => None |}.

(** [errorHandler] answering with the log path it was given. *)
Definition handler0 (_ : js_error) (logPath : string) : result string := Ok logPath.

(** The reading of the uninstall policy on the calls made: the removal of
    the desktop integration is requested in every run. *)
Definition removal_always_triggered (env : Env) (appName : string) (w : World) : Prop :=
  In (EvRemoveDesktopShortcut appName) (added (trace w) (snd (uninstall env appName w))).

(** A library that knows where "Game" is installed. *)
Definition world_installed : World :=
  {| status := done; installed := {[ "Game" := true ]};
     install_path := {[ "Game" := "/games/Game" ]};
     ipc_channels := []; trace := [] |}.

(** An empty registry, and an install that reports one step of progress
    and then resolves with [outcome]. *)
Definition backend0 : ToolManager.Backend unit :=
  {| ToolManager.abortControllers := ∅; ToolManager.registry_calls := [];
     ToolManager.sent := [] |}.

Definition install_then (outcome : ToolManager.InstallOutcome)
    (release : ToolManager.ToolVersionInfo)
    (onProgress : ToolManager.State -> option unit -> M (ToolManager.Backend unit) unit)
    (signal : ToolManager.AbortController)
  : M (ToolManager.Backend unit) ToolManager.InstallOutcome :=
  onProgress ToolManager.downloading (Some tt);;
  mret outcome.

Definition release0 : ToolManager.ToolVersionInfo :=
  {| ToolManager.version := "Wine-GE-Proton7-1";
     ToolManager.download := "https://example.org/wine.tar.xz" |}.

(** The words of a command line as the shell separates them: runs of
    spaces count once. *)
Definition words (command : string) : list string :=
  List.filter (fun w => negb (String.eqb w "")) (JS.split JS.SP command).

(** The decimal text [text] reads as the integer [n], by the parser of
    the Standard Library. *)
Definition denotes (text : string) (n : Z) : Prop :=
  option_map Z.of_int (NilZero.int_of_string text) = Some n.

(** The worker-count arguments the setting [n] asks for: none for 0, and
    otherwise the flag followed by a text that reads as [n]. *)
Definition worker_args_for (n : Z) (args : list string) : Prop :=
  if (n =? 0)%Z then args = []
  else exists value, args = ["--max-workers"; value] /\ denotes value n.

(** The worker-count arguments as the spec words them: nothing for 0 ("use
    the tool's default"), the flag and the configured value otherwise. *)
Definition spec_worker_args (maxWorkers : Z) : list string :=
  if (maxWorkers =? 0)%Z then [] else ["--max-workers"; JS.of_number maxWorkers].

(** Calls that reach out to the network or start the tool. *)
Definition attempts_remote (e : event) : bool :=
  match e with
  | EvSpawn _ _ | EvExec _ | EvHttp _ _ => true
  | _ => false
  end.

(** The reading of the network policy on an operation: run offline, it
    makes no such call. *)
Definition short_circuits_offline {A} (env : Env) (c : M World A) (w : World) : Prop :=
  online env = false ->
  forallb (fun e => negb (attempts_remote e)) (added (trace w) (snd (c w))) = true.

(** A store that serves one product page. *)
Definition page0 : Page :=
  {| page_type := "productHome";
     page_data := Some
       {| data_about := Some [("description", "A game")];
          requirements := Some
            {| systems := Some
                 [ {| details := Some [Some "Windows"; Some "OS"; Some "CPU"] |} ] |} |} |}.

Definition env_store : Env :=
  {| legendaryBin := "/opt/legendary"; heroicGamesConfigPath := "/cfg/";
     home := "/home/u"; isWindows := false; platform := linux;
     maxWorkers := 0; discordRPC := false; language := "pt";
     gameSettings := settings0; titleOf := fun a => a;
     existsSync := fun _ => true;
     run := fun _ => {| exit_code := 0; exit_stdout := ""; exit_stderr := "" |};
     dxvk_ok := true; online := true;
     catalogOffers := fun _ => Some [None; Some "game-slug/home"];
     content := fun _ => Some [page0] |}.

(** ** Vocabulary for the remaining operations *)

(** Every instance of the registry is filed under its own [appName]. *)
Definition keyed_by_name (m : gmap string GameRegistry.LegendaryGame) : Prop :=
  forall k g, m !! k = Some g -> GameRegistry.appName g = k.

(** A registry in which "Game" is being installed. *)
Definition registry_busy : gmap string GameRegistry.LegendaryGame :=
  {[ "Game" := {| GameRegistry.appName := "Game";
                  GameRegistry.state_appName := "Game";
                  GameRegistry.state_status := installing |} ]}.

(** The calls a computation of the desktop module adds to those made
    [before]. *)
Definition new_calls (before after : list Desktop.call) : list Desktop.call :=
  drop (length before) after.

(** The files a sequence of calls writes, and the files it unlinks. *)
Definition written (cs : list Desktop.call) : list string :=
  omap (fun c => match c with Desktop.WriteFile path _ _ => Some path | _ => None end) cs.

Definition unlinked (cs : list Desktop.call) : list string :=
  omap (fun c => match c with Desktop.Unlink path _ => Some path | _ => None end) cs.

(** A library record with a cover on a URL that holds a space. *)
Definition cfg0 : Desktop.Config :=
  {| Desktop.heroicIconFolder := "/cfg/icons";
     Desktop.enableDesktopShortcutsOnDesktop := true;
     Desktop.enableDesktopShortcutsOnStartMenu := false;
     Desktop.gameInfo :=
       {| Desktop.title := "The Game"; Desktop.app_name := "Game";
          Desktop.art_square := "https://cdn.example.org/the game.png" |};
     Desktop.mkdirSync_ok := fun _ => true |}.

(** A Linux host without any of the files asked about, on which every
    child process exits with [code]. *)
Definition env_bare (code : Z) : Env :=
  {| legendaryBin := "/opt/legendary"; heroicGamesConfigPath := "/cfg/";
     home := "/home/u"; isWindows := false; platform := linux;
     maxWorkers := 0; discordRPC := true; language := "en";
     gameSettings := settings0; titleOf := fun a => a;
     existsSync := fun _ => false;
     run := fun _ => {| exit_code := code; exit_stdout := ""; exit_stderr := "" |};
     dxvk_ok := true; online := true;
     catalogOffers := fun _ => Some [None; Some ""]; content := fun _ => None |}.

(** A Windows host on which every child process exits with [code]. *)
Definition env_windows (code : Z) : Env :=
  {| legendaryBin := "legendary.exe"; heroicGamesConfigPath := "C:/cfg/";
     home := "C:/Users/u"; isWindows := true; platform := win32;
     maxWorkers := 0; discordRPC := true; language := "en";
     gameSettings := settings0; titleOf := fun a => a;
     existsSync := fun _ => true;
     run := fun _ => {| exit_code := code; exit_stdout := ""; exit_stderr := "" |};
     dxvk_ok := true; online := true;
     catalogOffers := fun _ => None; content := fun _ => None |}.

(** A number of seconds or minutes as the display prints it. *)
Definition digits (n : N) : string := JS.of_number (Z.of_N n).

(** The same on two places. *)
Definition two_digits (n : N) : string :=
  if (9 <? n)%N then digits n else "0" +:+ digits n.

(** A store that keeps the errors logged on it, and a refresh of the tool
    catalogue that fails. *)
Definition log_on_list (e : js_error) (log : list js_error) : list js_error := log ++ [e].

Definition refresh_fails (fetch : option bool) : M (list js_error) unit :=
  throw (Rejected "fetch failed").

(** An install that rejects. *)
Definition install_rejects
    (release : ToolManager.ToolVersionInfo)
    (onProgress : ToolManager.State -> option unit -> M (ToolManager.Backend unit) unit)
    (signal : ToolManager.AbortController)
  : M (ToolManager.Backend unit) ToolManager.InstallOutcome :=
  onProgress ToolManager.downloading (Some tt);;
  throw (Rejected "ENOSPC").

(** The Discord presence has been disconnected. *)
Definition disconnected (w : World) : Prop := In EvDiscordDisconnect (trace w).

(** [c] disconnects the presence exactly when it returns: from a world in
    which it is connected, a normal return leaves it disconnected and an
    exception leaves it connected. *)
Definition disconnects_on_return {A} (c : M World A) : Prop :=
  forall w, ~ disconnected w ->
    match c w with
    | (Ok _, w') => disconnected w'
    | (Throw _, w') => ~ disconnected w'
    end.

(** [c] never throws. *)
Definition never_throws {S A} (c : M S A) : Prop :=
  forall s, exists a, fst (c s) = Ok a.

(** A store whose catalogue lists no product slug for any namespace and
    that fails every content request. *)
Definition env_no_slug : Env :=
  {| legendaryBin := "/opt/legendary"; heroicGamesConfigPath := "/cfg/";
     home := "/home/u"; isWindows := false; platform := linux;
     maxWorkers := 0; discordRPC := false; language := "en";
     gameSettings := settings0; titleOf := fun a => a;
     existsSync := fun _ => true;
     run := fun _ => {| exit_code := 0; exit_stdout := ""; exit_stderr := "" |};
     dxvk_ok := true; online := true;
     catalogOffers := fun _ => Some [None; Some ""];
     content := fun _ => Some [page0] |}.

(** What the walk of [getExtraInfo] through the pages of an answer finds,
    told without exceptions: [None] as soon as one link of either chain
    is missing. *)
Definition product_page_info (pages : list Page) : option ExtraInfo :=
  first_page ← pages !! 0%nat;
  first_data ← page_data first_page;
  first_requirements ← requirements first_data;
  first_systems ← systems first_requirements;
  first_system ← first_systems !! 0%nat;
  first_details ← details first_system;
  let holed :=
    {| page_type := page_type first_page;
       page_data := Some
         {| data_about := data_about first_data;
            requirements := Some
              {| systems := Some
                   (<[0%nat := {| details := Some match first_details with
                                                  | [] => []
                                                  | _ :: rest => None :: rest
                                                  end |}]> first_systems) |} |} |} in
  home_page ← List.find (fun e => String.eqb (page_type e) "productHome")
                 (<[0%nat := holed]> pages);
  home_data ← page_data home_page;
  home_requirements ← requirements home_data;
  home_systems ← systems home_requirements;
  home_system ← home_systems !! 0%nat;
  Some {| extra_about := data_about home_data; reqs := details home_system |}.

(** The address of the product page of [appName]. *)
Definition product_url (env : Env) (appName : string) : string :=
  "https://store-content.ak.epicgames.com/api/"
    +:+ (if String.eqb (language env) "pt" then "pt-BR" else language env)
    +:+ "/content/products/" +:+ appName.

(** A Linux host whose shell is bash or zsh: a pipeline ends with the
    status of its last command.  The tool, like every plain command,
    exits with [code]; [tee] succeeds. *)
Definition env_tee (code : Z) : Env :=
  {| legendaryBin := "/opt/legendary"; heroicGamesConfigPath := "/cfg/";
     home := "/home/u"; isWindows := false; platform := linux;
     maxWorkers := 0; discordRPC := false; language := "en";
     gameSettings := settings0; titleOf := fun a => a;
     existsSync := fun _ => true;
     run := fun command =>
       if JS.includes "|& tee " command
       then {| exit_code := 0; exit_stdout := ""; exit_stderr := "" |}
       else {| exit_code := code; exit_stdout := ""; exit_stderr := "" |};
     dxvk_ok := true; online := true;
     catalogOffers := fun _ => None; content := fun _ => None |}.
(* ===================================================================== *)
(** * Facts about the string primitives *)
(* ===================================================================== *)

Example split_words : JS.split JS.SP "a b  c" = ["a"; "b"; ""; "c"].
Proof. reflexivity. Qed.

Example split_empty : JS.split JS.SP "" = [""].
Proof. reflexivity. Qed.

Example of_number_digits :
  JS.of_number 0 = "0" /\ JS.of_number 12 = "12" /\ JS.of_number (-3) = "-3".
Proof. repeat split; reflexivity. Qed.

Example replace_first_only : JS.replace "~" "/home/u" "~/Games/~x" = "/home/u/Games/~x".
Proof. reflexivity. Qed.

Example strip_slash_line : JS.strip_slash "fortnite/home" = "fortnite".
Proof. reflexivity. Qed.

Lemma split_nonempty sep s : JS.split sep s <> [].
Proof.
  destruct s as [|c rest]; simpl; [discriminate|].
  destruct (Ascii.eqb c sep); [discriminate|].
  destruct (JS.split sep rest); discriminate.
Qed.

(** Splitting distributes over a separator that stands between two parts. *)
Lemma split_app sep a b :
  JS.split sep (a +:+ String sep b) = JS.split sep a ++ JS.split sep b.
Proof.
  induction a as [|c a IH]; simpl.
  - rewrite Ascii.eqb_refl. reflexivity.
  - destruct (Ascii.eqb c sep); simpl.
    + now rewrite IH.
    + rewrite IH. destruct (JS.split sep a) eqn:E; [|reflexivity].
      now apply split_nonempty in E.
Qed.

Lemma free_of_cons c d s :
  free_of c (String d s) <-> d <> c /\ free_of c s.
Proof.
  unfold free_of; simpl.
  destruct (ascii_dec c d) as [->|Hne].
  - split; [|intros [H _]; now elim H].
    destruct s; simpl; discriminate.
  - rewrite orb_false_l. split; [intros H; split; congruence | now intros [_ H]].
Qed.

Lemma split_free sep s : free_of sep s -> JS.split sep s = [s].
Proof.
  induction s as [|c s IH]; intros H; [reflexivity|].
  apply free_of_cons in H as [Hne Hs]. simpl.
  apply Ascii.eqb_neq in Hne. rewrite Hne, (IH Hs). reflexivity.
Qed.

Lemma last_elem_app xs x : JS.last_elem (xs ++ [x]) = Some x.
Proof.
  unfold JS.last_elem. rewrite map_app. simpl. apply last_last.
Qed.

(** Every path has a last segment. *)
Lemma last_segment_exists path : exists seg, last_segment seg path.
Proof.
  induction path as [|c path [seg [Hfree Hshape]]].
  - exists "". split; [reflexivity | now left].
  - destruct (ascii_dec c "/") as [->|Hc].
    + exists seg. split; [exact Hfree|]. right.
      destruct Hshape as [->|[dir ->]]; [now exists "" | now exists (String "/" dir)].
    + destruct Hshape as [->|[dir ->]].
      * exists (String c seg). split; [|now left].
        apply free_of_cons. now split.
      * exists seg. split; [exact Hfree|]. right. now exists (String c dir).
Qed.

Lemma last_elem_split_segment seg path :
  last_segment seg path -> JS.last_elem (JS.split "/" path) = Some seg.
Proof.
  intros [Hfree [->|[dir ->]]].
  - now rewrite (split_free _ _ Hfree).
  - rewrite split_app, (split_free _ _ Hfree). apply last_elem_app.
Qed.

(* ===================================================================== *)
(** * The progress listeners *)
(* ===================================================================== *)

(** Unfold the monad of a computation applied to a store. *)
Ltac step_monad :=
  unfold mbind, M_bind, mret, M_ret, member, throw, get, modify, try_catch in *;
  cbn beta iota zeta in *.

Example stderr_two_lines :
  UpdateProgress.on_stderr_data "Game" "Game"
    ("a b c d 12.50% f g h i j 00:00:35" +:+ JS.nl +:+ "a b c d e 100.00 g")
    UpdateProgress.closure0
  = (Ok tt,
     {| UpdateProgress.progress :=
          {| UpdateProgress.bytes := Some "100.00MiB";
             UpdateProgress.eta := Some "00:00:35";
             UpdateProgress.percent := Some "12.50%" |};
        UpdateProgress.isVerifying := false;
        UpdateProgress.stderr_once := [];
        UpdateProgress.stdout_once := 0;
        UpdateProgress.logged := [] |}).
Proof. reflexivity. Qed.

(** A request for another game leaves the snapshot alone. *)
Lemma on_stderr_data_other_app this appName data c :
  appName <> this ->
  UpdateProgress.on_stderr_data this appName data c
  = (Ok tt,
     {| UpdateProgress.progress := UpdateProgress.progress c;
        UpdateProgress.isVerifying := JS.includes "Game needs to be verified" data;
        UpdateProgress.stderr_once := UpdateProgress.stderr_once c;
        UpdateProgress.stdout_once := UpdateProgress.stdout_once c;
        UpdateProgress.logged := UpdateProgress.logged c |}).
Proof.
  intros Hne. unfold UpdateProgress.on_stderr_data, UpdateProgress.set_isVerifying.
  step_monad. apply String.eqb_neq in Hne. now rewrite Hne.
Qed.

(** C1 (defect of the code): the listener on [stderr] reads the second
    line of every chunk with [split('\n')[1].split(' ')].  For a request
    of this game and a chunk that holds no line feed the second line is
    [undefined], and the listener throws a [TypeError] instead of leaving
    the chunk aside. *)
Theorem on_stderr_data_throws_without_newline this data c :
  free_of JS.LF data ->
  fst (UpdateProgress.on_stderr_data this this data c) = Throw (TypeError "split").
Proof.
  intros Hfree.
  unfold UpdateProgress.on_stderr_data, UpdateProgress.split_at,
    UpdateProgress.set_isVerifying, UpdateProgress.add_stdout_once.
  rewrite String.eqb_refl, (split_free _ _ Hfree).
  step_monad. simpl.
  destruct (JS.includes "Game needs to be verified" data); reflexivity.
Qed.

Lemma on_stderr_data_throws_without_newline_witness :
  free_of JS.LF "Progress: 10%" /\
  fst (UpdateProgress.on_stderr_data "Game" "Game" "Progress: 10%" UpdateProgress.closure0)
  = Throw (TypeError "split").
Proof.
  split; [reflexivity|].
  apply (on_stderr_data_throws_without_newline "Game" "Progress: 10%").
  reflexivity.
Defined.

(** A chunk with at least two lines never makes the listener throw:
    missing fields only leave [undefined] in the snapshot. *)
Lemma on_stderr_data_two_lines_ok this appName data c line0 line1 rest :
  JS.split JS.LF data = line0 :: line1 :: rest ->
  fst (UpdateProgress.on_stderr_data this appName data c) = Ok tt.
Proof.
  intros Hlines.
  unfold UpdateProgress.on_stderr_data, UpdateProgress.split_at,
    UpdateProgress.set_isVerifying, UpdateProgress.add_stdout_once.
  rewrite Hlines. step_monad. simpl.
  destruct (String.eqb appName this); [|reflexivity].
  destruct (JS.includes "Game needs to be verified" data); reflexivity.
Qed.

(** The listener on [stdout] fails the same way on a chunk with fewer than
    four space-separated fields, after it has already overwritten
    [progress.bytes]. *)
Example on_stdout_data_throws_on_short_chunk :
  UpdateProgress.on_stdout_data "Verifying 10/100" UpdateProgress.closure0
  = (Throw (TypeError "split"),
     {| UpdateProgress.progress :=
          {| UpdateProgress.bytes := Some "undefinedMiB";
             UpdateProgress.eta := Some "00:00:00";
             UpdateProgress.percent := Some "0.00%" |};
        UpdateProgress.isVerifying := false;
        UpdateProgress.stderr_once := [];
        UpdateProgress.stdout_once := 0;
        UpdateProgress.logged := [] |}).
Proof. reflexivity. Qed.

(** The exception leaves [emit]: a request followed by such a chunk ends
    in the [TypeError]. *)
Example emit_stderr_propagates :
  fst ((UpdateProgress.requestUpdateProgress "Game";;
        UpdateProgress.emit_stderr "Game" "Progress: 10%") UpdateProgress.closure0)
  = Throw (TypeError "split").
Proof. reflexivity. Qed.

(* ===================================================================== *)
(** * Invariants of computations on the world *)
(* ===================================================================== *)

Lemma maintains_ret {A} P (a : A) : maintains P (mret a).
Proof. intros w Hw. exact Hw. Qed.

Lemma maintains_throw {A} P e : maintains P (@throw World A e).
Proof. intros w Hw. exact Hw. Qed.

Lemma maintains_bind {A B} P (c : M World A) (f : A -> M World B) :
  maintains P c -> (forall a, maintains P (f a)) -> maintains P (c ≫= f).
Proof.
  intros Hc Hf w Hw. specialize (Hc w Hw).
  unfold mbind, M_bind. destruct (c w) as [[a|e] w1]; simpl in *.
  - now apply Hf.
  - exact Hc.
Qed.

Lemma maintains_try_catch {A} P (c : M World A) h :
  maintains P c -> (forall e, maintains P (h e)) -> maintains P (try_catch c h).
Proof.
  intros Hc Hh w Hw. specialize (Hc w Hw).
  unfold try_catch. destruct (c w) as [[a|e] w1]; simpl in *.
  - exact Hc.
  - now apply Hh.
Qed.

Lemma maintains_get P : maintains P (@get World).
Proof. intros w Hw. exact Hw. Qed.

Lemma maintains_member {A} P prop (v : option A) : maintains P (@member World A prop v).
Proof. destruct v; [apply maintains_ret | apply maintains_throw]. Qed.

(** Writing to the trace does not touch the status. *)
Lemma busy_emit e : maintains busy (emit e).
Proof. intros w Hw. exact Hw. Qed.

Lemma busy_set_status s : at_rest s = false -> maintains busy (set_status s).
Proof. intros Hs w _. exact Hs. Qed.

Lemma busy_execAsync env command : maintains busy (execAsync env command).
Proof.
  unfold execAsync. apply maintains_bind; [apply busy_emit|]. intros _.
  cbn zeta. destruct (_ =? _)%Z; [apply maintains_ret | apply maintains_throw].
Qed.

Lemma busy_getGameInfo env appName : maintains busy (getGameInfo env appName).
Proof.
  unfold getGameInfo. apply maintains_bind; [apply maintains_get|].
  intros w. apply maintains_ret.
Qed.

Lemma busy_DXVK_install env prefix : maintains busy (DXVK_install env prefix).
Proof.
  unfold DXVK_install. apply maintains_bind; [apply busy_emit|]. intros _.
  destruct (dxvk_ok env); [apply maintains_ret | apply maintains_throw].
Qed.

Create HintDb busy.
#[local] Hint Resolve maintains_ret maintains_throw maintains_get maintains_member
  busy_emit busy_execAsync busy_getGameInfo busy_DXVK_install : busy.

(** Walk a computation: binds and handlers by the lemmas above, branches
    by cases. *)
Ltac walk_busy :=
  repeat first
    [ apply maintains_bind; [|intro]
    | apply maintains_try_catch; [|intro]
    | progress (unfold logInfo, logWarning, logError)
    | solve [auto with busy]
    | apply busy_set_status; reflexivity
    | match goal with
      | |- maintains _ (if ?b then _ else _) => destruct b
      | |- maintains _ (match ?x with _ => _ end) => destruct x
      end ].

(* ===================================================================== *)
(** * Status after the child process has exited *)
(* ===================================================================== *)

(** C2 (defect of the code): [launch] awaits [execAsync], which settles
    when the game process has exited, and only then assigns ['playing'];
    no path assigns ['done'].  Whatever the settings and however the
    processes end, the status [launch] leaves behind is not at rest. *)
Theorem launch_never_returns_to_rest env appName w :
  at_rest (status (snd (launch env appName w))) = false.
Proof.
  unfold launch. cbv zeta.
  unfold mbind at 1. unfold M_bind at 1. cbn [set_status modify].
  match goal with
  | |- at_rest (status (snd (?rest ?w1))) = false =>
      change (busy (snd (rest w1)))
  end.
  match goal with
  | |- busy (snd (?rest ?w1)) =>
      assert (H : maintains busy rest) by walk_busy; apply H; reflexivity
  end.
Qed.

(** The game exits with code zero on Linux: the status ends at ['playing']. *)
Example launch_exit_zero_ends_playing :
  let r := launch (env0 0 0 true) "Game" world0 in
  fst r = Ok {| stdout := ""; stderr := "" |} /\ status (snd r) = playing.
Proof. split; reflexivity. Qed.

(** The game exits with code 1: the status stays at ['launching']. *)
Example launch_exit_one_ends_launching :
  let r := launch (env0 1 0 true) "Game" world0 in
  fst r = Throw (ExecError 1 "") /\ status (snd r) = launching.
Proof. split; reflexivity. Qed.

(** [update] resolves from the child's ['exit'] event without touching the
    status again. *)
Lemma update_keeps_updating env appName w :
  status (snd (update env appName w)) = updating.
Proof.
  unfold update, ipcMain_handle, logInfo, emit, set_status. step_monad.
  destruct (bool_decide _); reflexivity.
Qed.

(** What [execAsync] does to the world. *)
Lemma execAsync_run env command w :
  execAsync env command w =
  let r := run env command in
  let w1 := {| status := status w; installed := installed w;
               install_path := install_path w; ipc_channels := ipc_channels w;
               trace := trace w ++ [EvExec command] |} in
  if (exit_code r =? 0)%Z
  then (Ok {| stdout := exit_stdout r; stderr := exit_stderr r |}, w1)
  else (Throw (ExecError (exit_code r) (exit_stderr r)), w1).
Proof.
  unfold execAsync, emit. step_monad.
  destruct (_ =? _)%Z; reflexivity.
Qed.

(** [uninstall], [repair] and [import] reset the status in a [then] only:
    a child that exits with another code than zero leaves it as it was
    set on entry. *)
Lemma uninstall_failure_keeps_status env appName w :
  exit_code (run env (uninstall_command env appName)) <> 0%Z ->
  status (snd (uninstall env appName w)) = uninstalling.
Proof.
  intros Hcode. apply Z.eqb_neq in Hcode.
  unfold uninstall, installState, logInfo, emit, set_status. step_monad.
  rewrite execAsync_run. cbn zeta. rewrite Hcode. reflexivity.
Qed.

Lemma repair_failure_keeps_status env appName w :
  exit_code (run env (repair_command env appName)) <> 0%Z ->
  status (snd (repair env appName w)) = repairing.
Proof.
  intros Hcode. apply Z.eqb_neq in Hcode.
  unfold repair, logInfo, emit, set_status. step_monad.
  rewrite execAsync_run. cbn zeta. rewrite Hcode. reflexivity.
Qed.

(* ===================================================================== *)
(** * install and uninstall *)
(* ===================================================================== *)

Lemma added_app before evs w :
  trace w = before ++ evs -> added before w = evs.
Proof. intros Htrace. unfold added. rewrite Htrace. apply drop_app_length. Qed.

(** The whole effect of [install], by the exit code of the tool. *)
Lemma install_run {H} (errorHandler : js_error -> string -> result H) env appName path w :
  let command := install_command env appName path in
  let r := run env command in
  let entry := [EvLogInfo ["Installing " +:+ appName +:+ " with:"; command];
                EvInstallState appName true; EvExec command] in
  install H errorHandler env appName path w =
  if (exit_code r =? 0)%Z then
    (Ok (Resolved {| stdout := exit_stdout r; stderr := exit_stderr r |}),
     {| status := done;
        installed := <[appName := true]> (installed w);
        install_path := install_path w; ipc_channels := ipc_channels w;
        trace := trace w ++ entry ++ [EvAddDesktopShortcut appName] |})
  else
    let error := ExecError (exit_code r) (exit_stderr r) in
    let w' s :=
      {| status := s;
         installed := <[appName := false]> (<[appName := true]> (installed w));
         install_path := install_path w; ipc_channels := ipc_channels w;
         trace := trace w ++ entry ++
                  [EvInstallState appName false;
                   EvErrorHandler error (logPath env appName)] |} in
    match errorHandler error (logPath env appName) with
    | Ok h => (Ok (Handled h), w' done)
    | Throw e => (Throw e, w' installing)
    end.
Proof.
  unfold install, call_errorHandler, installState, addDesktopShortcut, logInfo,
    emit, set_status.
  step_monad. rewrite execAsync_run. cbn zeta.
  destruct (_ =? _)%Z; cbn.
  - rewrite <- !app_assoc. reflexivity.
  - destruct (errorHandler _ _); cbn; rewrite <- !app_assoc; reflexivity.
Qed.

(** [install] tells the library "installed" before it starts the command
    line.  When it returns, the installed-state is true exactly when the
    command line handed to the shell exited with status zero; in that
    case the result is the captured output, the status is back at
    ['done'] and the desktop shortcut has been requested without being
    awaited.  On any other status the installed-state is set back to
    false and the result is whatever [errorHandler] makes of the error
    and the log path. *)
Theorem install_outcome {H} (errorHandler : js_error -> string -> result H)
    env appName path w :
  let command := install_command env appName path in
  let r := run env command in
  let error := ExecError (exit_code r) (exit_stderr r) in
  let out := install H errorHandler env appName path w in
  installed (snd out) = <[appName := (exit_code r =? 0)%Z]> (installed w)
  /\ fst out =
       (if (exit_code r =? 0)%Z
        then Ok (Resolved {| stdout := exit_stdout r; stderr := exit_stderr r |})
        else match errorHandler error (logPath env appName) with
             | Ok h => Ok (Handled h)
             | Throw e => Throw e
             end)
  /\ added (trace w) (snd out) =
       [EvLogInfo ["Installing " +:+ appName +:+ " with:"; command];
        EvInstallState appName true; EvExec command] ++
       (if (exit_code r =? 0)%Z
        then [EvAddDesktopShortcut appName]
        else [EvInstallState appName false;
              EvErrorHandler error (logPath env appName)])
  /\ status (snd out) =
       (if (exit_code r =? 0)%Z then done
        else match errorHandler error (logPath env appName) with
             | Ok _ => done
             | Throw _ => installing
             end).
Proof.
  cbv zeta. rewrite install_run. cbv zeta.
  destruct (_ =? _)%Z; [|destruct (errorHandler _ _)]; cbn [fst snd installed status].
  all: repeat split.
  all: try (now rewrite insert_insert_eq).
  all: apply added_app; cbn [trace]; reflexivity.
Qed.

(** A command line that exits with status 0, and one that exits with
    status 1. *)
Example install_exit_zero :
  let out := install string handler0 (env0 0 0 true) "Game" "/games" world0 in
  fst out = Ok (Resolved {| stdout := ""; stderr := "" |})
  /\ installed (snd out) !! "Game" = Some true
  /\ status (snd out) = done.
Proof. vm_compute. repeat split. Qed.

Example install_exit_one :
  let out := install string handler0 (env0 1 0 true) "Game" "/games" world0 in
  fst out = Ok (Handled (JS.dq +:+ "/cfg/Game.log" +:+ JS.dq))
  /\ installed (snd out) !! "Game" = Some false
  /\ status (snd out) = done.
Proof. vm_compute. repeat split. Qed.

(** The whole effect of [uninstall], by the exit code of the tool. *)
Lemma uninstall_run env appName w :
  let command := uninstall_command env appName in
  let r := run env command in
  let entry := [EvLogInfo ["Uninstalling " +:+ appName +:+ " with:"; command];
                EvInstallState appName false; EvExec command] in
  uninstall env appName w =
  if (exit_code r =? 0)%Z then
    (Ok {| stdout := exit_stdout r; stderr := exit_stderr r |},
     {| status := done;
        installed := <[appName := false]> (installed w);
        install_path := install_path w; ipc_channels := ipc_channels w;
        trace := trace w ++ entry ++ [EvRemoveDesktopShortcut appName] |})
  else
    (Throw (ExecError (exit_code r) (exit_stderr r)),
     {| status := uninstalling;
        installed := <[appName := false]> (installed w);
        install_path := install_path w; ipc_channels := ipc_channels w;
        trace := trace w ++ entry |}).
Proof.
  unfold uninstall, installState, removeDesktopShortcut, logInfo, emit, set_status.
  step_monad. rewrite execAsync_run. cbn zeta.
  destruct (_ =? _)%Z; cbn; rewrite <- !app_assoc; reflexivity.
Qed.

(** C4 (as the code has it): [uninstall] sets the installed-state to
    false before it starts the tool and no later step writes it again, so
    it is false when [uninstall] returns or throws, whatever the exit
    code.  The removal of the desktop shortcut is requested in the [then]
    of the tool's promise: after an exit with code zero, and not
    otherwise. *)
Theorem uninstall_outcome env appName w :
  let command := uninstall_command env appName in
  let r := run env command in
  let out := uninstall env appName w in
  installed (snd out) = <[appName := false]> (installed w)
  /\ added (trace w) (snd out) =
       [EvLogInfo ["Uninstalling " +:+ appName +:+ " with:"; command];
        EvInstallState appName false; EvExec command] ++
       (if (exit_code r =? 0)%Z then [EvRemoveDesktopShortcut appName] else [])
  /\ fst out =
       (if (exit_code r =? 0)%Z
        then Ok {| stdout := exit_stdout r; stderr := exit_stderr r |}
        else Throw (ExecError (exit_code r) (exit_stderr r))).
Proof.
  cbv zeta. rewrite uninstall_run. cbv zeta.
  destruct (_ =? _)%Z; cbn [fst snd installed].
  all: repeat split.
  all: apply added_app; cbn [trace]; rewrite ?app_nil_r; reflexivity.
Qed.

(** The tool exits with code 1: the removal of the shortcut is not
    requested. *)
Lemma uninstall_failure_skips_removal :
  ~ removal_always_triggered (env0 1 0 true) "Game" world0.
Proof.
  unfold removal_always_triggered. vm_compute.
  intros [H|[H|[H|[]]]]; discriminate H.
Qed.

(* ===================================================================== *)
(** * moveInstall *)
(* ===================================================================== *)

(** The whole effect of [moveInstall] on an entity with an install path. *)
Lemma moveInstall_run env appName newInstallPath w installpath :
  install_path w !! appName = Some installpath ->
  let dest := newInstallPath +:+ "/"
                +:+ JS.interp (JS.last_elem (JS.split "/" installpath)) in
  let command := "mv -f " +:+ installpath +:+ " '" +:+ dest +:+ "'" in
  let r := run env command in
  moveInstall env appName newInstallPath w =
  (Ok dest,
   {| status := done; installed := installed w;
      install_path :=
        if (exit_code r =? 0)%Z then <[appName := dest]> (install_path w)
        else install_path w;
      ipc_channels := ipc_channels w;
      trace := trace w ++
        [EvExec command;
         if (exit_code r =? 0)%Z then EvChangeGameInstallPath appName dest
         else EvLogError (ExecError (exit_code r) (exit_stderr r));
         EvAddDesktopShortcut appName] |}).
Proof.
  intros Hpath. cbv zeta.
  unfold moveInstall, getGameInfo, changeGameInstallPath, addDesktopShortcut,
    logError, emit, set_status.
  step_monad. cbn [install_path info_install_path]. rewrite Hpath.
  step_monad. rewrite execAsync_run. cbn zeta.
  destruct (_ =? _)%Z; cbn; rewrite <- !app_assoc; reflexivity.
Qed.

(** An entity without an install path: reading it throws before anything
    is moved. *)
Lemma moveInstall_without_path env appName newInstallPath w :
  install_path w !! appName = None ->
  fst (moveInstall env appName newInstallPath w) = Throw (TypeError "split")
  /\ added (trace w) (snd (moveInstall env appName newInstallPath w)) = [].
Proof.
  intros Hpath.
  unfold moveInstall, getGameInfo, set_status. step_monad.
  cbn [install_path info_install_path]. rewrite Hpath. cbn.
  split; [reflexivity|]. apply added_app. now rewrite app_nil_r.
Qed.

(** C5: the destination of [moveInstall] is the given parent directory
    followed by a slash and the last segment of the entity's install
    path.  The install-path record is written after the [mv] command has
    exited with code zero, and only then; when [mv] fails the record (of
    this and of every other entity) is what it was. *)
Theorem moveInstall_commits_after_move env appName newInstallPath w installpath seg :
  install_path w !! appName = Some installpath ->
  last_segment seg installpath ->
  let dest := newInstallPath +:+ "/" +:+ seg in
  let command := "mv -f " +:+ installpath +:+ " '" +:+ dest +:+ "'" in
  let r := run env command in
  let out := moveInstall env appName newInstallPath w in
  fst out = Ok dest
  /\ install_path (snd out) =
       (if (exit_code r =? 0)%Z then <[appName := dest]> (install_path w)
        else install_path w)
  /\ installed (snd out) = installed w
  /\ added (trace w) (snd out) =
       [EvExec command] ++
       (if (exit_code r =? 0)%Z then [EvChangeGameInstallPath appName dest]
        else [EvLogError (ExecError (exit_code r) (exit_stderr r))]) ++
       [EvAddDesktopShortcut appName].
Proof.
  intros Hpath Hseg. cbv zeta.
  rewrite (moveInstall_run _ _ _ _ _ Hpath). cbv zeta.
  rewrite (last_elem_split_segment _ _ Hseg).
  cbn [JS.interp fst snd install_path installed].
  repeat split. apply added_app. cbn [trace].
  destruct (_ =? _)%Z; reflexivity.
Qed.

Lemma moveInstall_commits_after_move_witness :
  let out := moveInstall (env0 1 0 true) "Game" "/mnt/new" world_installed in
  fst out = Ok "/mnt/new/Game"
  /\ install_path (snd out) = install_path world_installed
  /\ installed (snd out) = installed world_installed
  /\ added [] (snd out) =
       [EvExec "mv -f /games/Game '/mnt/new/Game'"; EvLogError (ExecError 1 "");
        EvAddDesktopShortcut "Game"].
Proof.
  apply (moveInstall_commits_after_move (env0 1 0 true) "Game" "/mnt/new"
           world_installed "/games/Game" "Game").
  - reflexivity.
  - split; [reflexivity|]. right. exists "/games". reflexivity.
Defined.

Example moveInstall_success :
  let out := moveInstall (env0 0 0 true) "Game" "/mnt/new" world_installed in
  fst out = Ok "/mnt/new/Game"
  /\ install_path (snd out) !! "Game" = Some "/mnt/new/Game"
  /\ added [] (snd out) =
       [EvExec "mv -f /games/Game '/mnt/new/Game'";
        EvChangeGameInstallPath "Game" "/mnt/new/Game";
        EvAddDesktopShortcut "Game"].
Proof. vm_compute. repeat split. Qed.

(** C10: [moveInstall] returns the amended destination and leaves the
    status at ['done'] whether the [mv] command succeeds or fails.  A
    failure is passed to [logError] and goes no further: against any other
    run from the same world, the value returned and the final status are
    the same. *)
Theorem moveInstall_swallows_failure env appName newInstallPath w installpath seg :
  install_path w !! appName = Some installpath ->
  last_segment seg installpath ->
  let dest := newInstallPath +:+ "/" +:+ seg in
  let r := run env ("mv -f " +:+ installpath +:+ " '" +:+ dest +:+ "'") in
  let out := moveInstall env appName newInstallPath w in
  fst out = Ok dest
  /\ status (snd out) = done
  /\ (if (exit_code r =? 0)%Z then True
      else In (EvLogError (ExecError (exit_code r) (exit_stderr r)))
              (added (trace w) (snd out)))
  /\ (forall env',
        let out' := moveInstall env' appName newInstallPath w in
        fst out' = fst out /\ status (snd out') = status (snd out)).
Proof.
  intros Hpath Hseg. cbv zeta.
  rewrite (moveInstall_run _ _ _ _ _ Hpath). cbv zeta.
  rewrite (last_elem_split_segment _ _ Hseg). cbn [JS.interp fst snd status].
  repeat split.
  - destruct (_ =? _)%Z eqn:Hcode; [exact I|].
    erewrite added_app by (cbn [trace]; reflexivity).
    right. left. reflexivity.
  - rewrite (moveInstall_run _ _ _ _ _ Hpath). cbv zeta.
    now rewrite (last_elem_split_segment _ _ Hseg).
  - now rewrite (moveInstall_run _ _ _ _ _ Hpath).
Qed.

Lemma moveInstall_swallows_failure_witness :
  let out := moveInstall (env0 1 0 true) "Game" "/mnt/new" world_installed in
  fst out = Ok "/mnt/new/Game"
  /\ status (snd out) = done
  /\ In (EvLogError (ExecError 1 "")) (added [] (snd out))
  /\ (forall env',
        let out' := moveInstall env' "Game" "/mnt/new" world_installed in
        fst out' = fst out /\ status (snd out') = status (snd out)).
Proof.
  apply (moveInstall_swallows_failure (env0 1 0 true) "Game" "/mnt/new"
           world_installed "/games/Game" "Game").
  - reflexivity.
  - split; [reflexivity|]. right. exists "/games". reflexivity.
Defined.

(* ===================================================================== *)
(** * The handler of installToolVersion *)
(* ===================================================================== *)

Section HandlerFacts.

Import ToolManager.

Context {ProgressInfo : Type}.
Variable install :
  ToolVersionInfo -> (State -> option ProgressInfo -> M (Backend ProgressInfo) unit) ->
  AbortController -> M (Backend ProgressInfo) InstallOutcome.

Lemma deleteAbortController_lookup id (b : Backend ProgressInfo) :
  abortControllers _ (snd (deleteAbortController _ id b)) !! id = None.
Proof. cbn. apply lookup_delete_eq. Qed.

Lemma deleteAbortController_other id id' (b : Backend ProgressInfo) :
  id' <> id ->
  abortControllers _ (snd (deleteAbortController _ id b)) !! id'
  = abortControllers _ b !! id'.
Proof. intros Hne. cbn. now apply lookup_delete_ne. Qed.

(** Whenever the handler returns a value, the key is out of the registry. *)
Lemma handler_result_unregistered release b r b' :
  installToolVersion_handler _ install release b = (Ok r, b') ->
  abortControllers _ b' !! version release = None.
Proof.
  unfold installToolVersion_handler. step_monad.
  destruct (createAbortController _ _ b) as [[controller|e] b1]; [|discriminate].
  destruct (install _ _ _ b1) as [[result|e] b2]; [|discriminate].
  intros [= _ <-]. apply lookup_delete_eq.
Qed.

(** C6: once the controller for [release.version] is registered and the
    install has reached its terminal result [r] (success, error or abort),
    the handler calls [deleteAbortController(release.version)] and only
    then returns [r]: in the backend it hands back, that call is the last
    one made to the registry, the registry has no entry for the version
    key, and nothing else of what the install left behind is changed. *)
Theorem handler_unregisters_before_return release b controller b1 r b2 :
  createAbortController _ (version release) b = (Ok controller, b1) ->
  install release (onProgress _ release) controller b1 = (Ok r, b2) ->
  exists b3,
    installToolVersion_handler _ install release b = (Ok r, b3)
    /\ registry_calls _ b3 = registry_calls _ b2 ++ [DeleteAbortController (version release)]
    /\ abortControllers _ b3 !! version release = None
    /\ abortControllers _ b3 = delete (version release) (abortControllers _ b2)
    /\ sent _ b3 = sent _ b2.
Proof.
  intros Hcreate Hinstall.
  unfold installToolVersion_handler. step_monad.
  rewrite Hcreate, Hinstall. eexists. split; [reflexivity|].
  cbn. split; [reflexivity|].
  split; [apply lookup_delete_eq | split; reflexivity].
Qed.

(** A registered install that rejects leaves through the handler with the
    controller still in the registry. *)
Lemma handler_rejection_skips_delete release b controller b1 e b2 :
  createAbortController _ (version release) b = (Ok controller, b1) ->
  install release (onProgress _ release) controller b1 = (Throw e, b2) ->
  installToolVersion_handler _ install release b = (Throw e, b2).
Proof.
  intros Hcreate Hinstall.
  unfold installToolVersion_handler. step_monad.
  now rewrite Hcreate, Hinstall.
Qed.

End HandlerFacts.

Lemma handler_unregisters_before_return_witness :
  exists b3,
    ToolManager.installToolVersion_handler unit
      (install_then ToolManager.abort) release0 backend0 = (Ok ToolManager.abort, b3)
    /\ ToolManager.registry_calls _ b3 =
         [ToolManager.CreateAbortController "Wine-GE-Proton7-1"] ++
         [ToolManager.DeleteAbortController "Wine-GE-Proton7-1"]
    /\ ToolManager.abortControllers _ b3 !! "Wine-GE-Proton7-1" = None
    /\ ToolManager.abortControllers _ b3 =
         delete "Wine-GE-Proton7-1"
           (<["Wine-GE-Proton7-1" := {| ToolManager.signal_aborted := false |}]> ∅)
    /\ ToolManager.sent _ b3 =
         [("progressOfToolManagerWine-GE-Proton7-1", ToolManager.downloading, Some tt)].
Proof.
  refine (handler_unregisters_before_return (install_then ToolManager.abort)
           release0 backend0 {| ToolManager.signal_aborted := false |}
           {| ToolManager.abortControllers :=
                <["Wine-GE-Proton7-1" := {| ToolManager.signal_aborted := false |}]> ∅;
              ToolManager.registry_calls :=
                [ToolManager.CreateAbortController "Wine-GE-Proton7-1"];
              ToolManager.sent := [] |}
           ToolManager.abort
           {| ToolManager.abortControllers :=
                <["Wine-GE-Proton7-1" := {| ToolManager.signal_aborted := false |}]> ∅;
              ToolManager.registry_calls :=
                [ToolManager.CreateAbortController "Wine-GE-Proton7-1"];
              ToolManager.sent :=
                [("progressOfToolManagerWine-GE-Proton7-1",
                  ToolManager.downloading, Some tt)] |} _ _).
  - reflexivity.
  - reflexivity.
Defined.

(* ===================================================================== *)
(** * The worker-count flag *)
(* ===================================================================== *)

Lemma digits_free_of_space d : free_of JS.SP (NilEmpty.string_of_uint d).
Proof.
  induction d; [reflexivity|..]; simpl;
    (apply free_of_cons; split; [discriminate | exact IHd]).
Qed.

Lemma string_of_uint_free_of_space d : free_of JS.SP (NilZero.string_of_uint d).
Proof.
  destruct d; [reflexivity|..]; apply digits_free_of_space.
Qed.

Lemma of_number_free_of_space n : free_of JS.SP (JS.of_number n).
Proof.
  unfold JS.of_number.
  destruct (Z.to_int n) as [d|d]; cbn [NilZero.string_of_int].
  - apply string_of_uint_free_of_space.
  - apply free_of_cons. split; [discriminate | apply string_of_uint_free_of_space].
Qed.

Lemma of_number_nonempty n : JS.of_number n <> "".
Proof.
  unfold JS.of_number.
  destruct (Z.to_int n) as [d|d]; cbn [NilZero.string_of_int]; [|discriminate].
  destruct d; discriminate.
Qed.

Lemma split_of_number n : JS.split JS.SP (JS.of_number n) = [JS.of_number n].
Proof. apply split_free, of_number_free_of_space. Qed.

Lemma words_app a b : words (a +:+ String JS.SP b) = words a ++ words b.
Proof. unfold words. now rewrite split_app, List.filter_app. Qed.

Lemma words_of_number n : words (JS.of_number n) = [JS.of_number n].
Proof.
  unfold words. rewrite split_of_number. cbn.
  destruct (String.eqb_spec (JS.of_number n) ""); [|reflexivity].
  now elim (of_number_nonempty n).
Qed.

Lemma words_worker_flag n :
  words (if (n =? 0)%Z then "" else "--max-workers " +:+ JS.of_number n)
  = spec_worker_args n.
Proof.
  unfold spec_worker_args. destruct (n =? 0)%Z; [reflexivity|].
  change ("--max-workers " +:+ JS.of_number n)
    with ("--max-workers" +:+ String JS.SP (JS.of_number n)).
  rewrite words_app, words_of_number. reflexivity.
Qed.

(** [update] hands [spawn] the split template itself. *)
Lemma update_command_args env appName :
  update_command env appName =
  "update" :: JS.split JS.SP appName ++ spec_worker_args (maxWorkers env) ++ ["-y"].
Proof.
  unfold update_command, spec_worker_args. cbv zeta.
  destruct (maxWorkers env =? 0)%Z.
  - change (JS.split JS.SP ("update" +:+ String JS.SP (appName +:+ String JS.SP "-y"))
            = "update" :: JS.split JS.SP appName ++ [] ++ ["-y"]).
    rewrite !split_app. reflexivity.
  - change (JS.split JS.SP
              ("update" +:+ String JS.SP (appName +:+ String JS.SP
                 ("--max-workers" +:+ String JS.SP
                    (JS.of_number (maxWorkers env) +:+ String JS.SP "-y"))))
            = "update" :: JS.split JS.SP appName
                ++ ["--max-workers"; JS.of_number (maxWorkers env)] ++ ["-y"]).
    rewrite !split_app, split_of_number. reflexivity.
Qed.

Lemma install_command_words env appName path :
  words (install_command env appName path) =
  words (legendaryBin env) ++ ["install"] ++ words appName ++ ["--base-path"]
    ++ words path ++ spec_worker_args (maxWorkers env) ++ ["-y"]
    ++ words (writeLog env appName).
Proof.
  unfold install_command. cbv zeta.
  set (workers := if (maxWorkers env =? 0)%Z then _ else _).
  change (words (legendaryBin env +:+ String JS.SP ("install" +:+ String JS.SP
            (appName +:+ String JS.SP ("--base-path" +:+ String JS.SP
              (path +:+ String JS.SP (workers +:+ String JS.SP
                ("-y" +:+ String JS.SP (writeLog env appName))))))))
          = words (legendaryBin env) ++ ["install"] ++ words appName ++ ["--base-path"]
              ++ words path ++ spec_worker_args (maxWorkers env) ++ ["-y"]
              ++ words (writeLog env appName)).
  rewrite !words_app. subst workers. rewrite words_worker_flag. reflexivity.
Qed.

Lemma repair_command_words env appName :
  words (repair_command env appName) =
  words (legendaryBin env) ++ ["repair"] ++ words appName
    ++ spec_worker_args (maxWorkers env) ++ ["-y"] ++ words (writeLog env appName).
Proof.
  unfold repair_command. cbv zeta.
  replace (if negb (maxWorkers env =? 0)%Z
           then "--max-workers " +:+ JS.of_number (maxWorkers env) else "")
    with (if (maxWorkers env =? 0)%Z
          then "" else "--max-workers " +:+ JS.of_number (maxWorkers env))
    by now destruct (maxWorkers env =? 0)%Z.
  set (workers := if (maxWorkers env =? 0)%Z then _ else _).
  change (words (legendaryBin env +:+ String JS.SP ("repair" +:+ String JS.SP
            (appName +:+ String JS.SP (workers +:+ String JS.SP
              ("-y" +:+ String JS.SP (writeLog env appName))))))
          = words (legendaryBin env) ++ ["repair"] ++ words appName
              ++ spec_worker_args (maxWorkers env) ++ ["-y"]
              ++ words (writeLog env appName)).
  rewrite !words_app. subst workers. rewrite words_worker_flag. reflexivity.
Qed.

(** The text printed for a number reads back as that number. *)
Lemma of_number_denotes n : denotes (JS.of_number n) n.
Proof.
  unfold denotes, JS.of_number. rewrite NilZero.isi.
  - cbn [option_map]. f_equal. apply DecimalZ.of_to.
  - destruct n as [|p|p]; cbn [Z.to_int]; [discriminate| |discriminate].
    intros [= Hnil]. now apply (DecimalPos.Unsigned.to_uint_nonnil p).
  - destruct n as [|p|p]; cbn [Z.to_int]; [discriminate|discriminate|].
    intros [= Hnil]. now apply (DecimalPos.Unsigned.to_uint_nonnil p).
Qed.

Lemma denotes_functional text n m : denotes text n -> denotes text m -> n = m.
Proof. unfold denotes. intros Hn Hm. rewrite Hn in Hm. now injection Hm. Qed.

(** C7: in the command lines of [install], [update] and [repair] the
    worker-count arguments stand between the entity's arguments and [-y],
    and they are exactly what the setting asks for: no argument at all
    when [maxWorkers] is 0, and otherwise [--max-workers] followed by a
    decimal text that reads as the configured number.  A literal zero is
    never passed: the value is never the text [0]. *)
Theorem worker_flag_follows_setting env appName path :
  exists args,
    worker_args_for (maxWorkers env) args
    /\ ~ In "0" args
    /\ words (install_command env appName path) =
         words (legendaryBin env) ++ ["install"] ++ words appName ++ ["--base-path"]
           ++ words path ++ args ++ ["-y"] ++ words (writeLog env appName)
    /\ update_command env appName =
         "update" :: JS.split JS.SP appName ++ args ++ ["-y"]
    /\ words (repair_command env appName) =
         words (legendaryBin env) ++ ["repair"] ++ words appName
           ++ args ++ ["-y"] ++ words (writeLog env appName).
Proof.
  exists (spec_worker_args (maxWorkers env)).
  split; [|split].
  - unfold worker_args_for, spec_worker_args.
    destruct (maxWorkers env =? 0)%Z; [reflexivity|].
    exists (JS.of_number (maxWorkers env)). split; [reflexivity | apply of_number_denotes].
  - unfold spec_worker_args. destruct (maxWorkers env =? 0)%Z eqn:Hzero; [intros []|].
    intros [H|[H|[]]]; [discriminate H|].
    apply Z.eqb_neq in Hzero. apply Hzero.
    apply (denotes_functional "0"); [|reflexivity].
    rewrite <- H. apply of_number_denotes.
  - split; [apply install_command_words|].
    split; [apply update_command_args | apply repair_command_words].
Qed.

(** With four workers configured, the arguments are the flag and [4];
    with none configured there is no argument. *)
Example worker_args_samples :
  worker_args_for 4 ["--max-workers"; "4"]
  /\ worker_args_for 0 []
  /\ ~ worker_args_for 4 ["--max-workers"; "0"]
  /\ ~ worker_args_for 0 ["--max-workers"; "0"].
Proof.
  repeat split.
  - exists "4". split; reflexivity.
  - intros [value [[= <-] Hreads]]. discriminate Hreads.
  - intros H. discriminate H.
Qed.

Example install_command_default_workers :
  install_command (env0 0 0 true) "Game" "/games"
  = "/opt/legendary install Game --base-path /games  -y |& tee "
      +:+ JS.dq +:+ "/cfg/Game.log" +:+ JS.dq.
Proof. reflexivity. Qed.

Example update_command_default_workers :
  update_command (env0 0 0 true) "Game" = ["update"; "Game"; "-y"].
Proof. reflexivity. Qed.

Example update_command_four_workers :
  update_command (env0 0 4 true) "Game" = ["update"; "Game"; "--max-workers"; "4"; "-y"].
Proof. reflexivity. Qed.

Example repair_command_four_workers :
  words (repair_command (env0 0 4 true) "Game")
  = ["/opt/legendary"; "repair"; "Game"; "--max-workers"; "4"; "-y"; "|&"; "tee";
     JS.dq +:+ "/cfg/Game.log" +:+ JS.dq].
Proof. reflexivity. Qed.

(* ===================================================================== *)
(** * Network availability *)
(* ===================================================================== *)

(** The whole effect of [update]. *)
Lemma update_run env appName w :
  let spawned := EvSpawn (legendaryBin env) (update_command env appName) in
  update env appName w =
  if bool_decide ("requestUpdateProgress" ∈ ipc_channels w) then
    (Throw (Rejected "Attempted to register a second handler"),
     {| status := updating; installed := installed w; install_path := install_path w;
        ipc_channels := ipc_channels w; trace := trace w ++ [spawned] |})
  else
    (Ok "game updated",
     {| status := updating; installed := installed w; install_path := install_path w;
        ipc_channels := "requestUpdateProgress" :: ipc_channels w;
        trace := trace w ++ [spawned; EvIpcHandle "requestUpdateProgress";
                             EvLogInfo ["child exiting"]] |}).
Proof.
  unfold update, ipcMain_handle, logInfo, emit, set_status. step_monad.
  cbn [ipc_channels]. destruct (bool_decide _); cbn; rewrite <- ?app_assoc; reflexivity.
Qed.

(** C8 (as the code has it): [getExtraInfo] asks [isOnline] first and,
    when the network is down, returns the empty [ExtraInfo] without
    sending a request.  [update] makes no such check ("Does NOT check for
    online connectivity"): offline as well, its first call spawns the
    tool, and it never asks [isOnline]. *)
Theorem network_check_only_in_getExtraInfo env appName namespace w :
  online env = false ->
  getExtraInfo env appName namespace w =
    (Ok emptyExtraInfo,
     {| status := status w; installed := installed w; install_path := install_path w;
        ipc_channels := ipc_channels w; trace := trace w ++ [EvIsOnline] |})
  /\ exists rest,
       added (trace w) (snd (update env appName w)) =
         EvSpawn (legendaryBin env) (update_command env appName) :: rest
       /\ ~ In EvIsOnline rest.
Proof.
  intros Hoff. split.
  - unfold getExtraInfo, isOnline, emit. step_monad. rewrite Hoff. reflexivity.
  - rewrite update_run. cbv zeta. destruct (bool_decide _); cbn [snd].
    + exists []. split; [apply added_app; reflexivity | intros []].
    + eexists. split; [apply added_app; reflexivity|].
      intros [H|[H|[]]]; discriminate H.
Qed.

Lemma network_check_only_in_getExtraInfo_witness :
  getExtraInfo (env0 0 0 false) "Game" (Some "ns") world0 =
    (Ok emptyExtraInfo,
     {| status := done; installed := ∅; install_path := ∅;
        ipc_channels := []; trace := [] ++ [EvIsOnline] |})
  /\ exists rest,
       added [] (snd (update (env0 0 0 false) "Game" world0)) =
         EvSpawn "/opt/legendary" (update_command (env0 0 0 false) "Game") :: rest
       /\ ~ In EvIsOnline rest.
Proof.
  apply (network_check_only_in_getExtraInfo (env0 0 0 false) "Game" (Some "ns") world0).
  reflexivity.
Defined.

(** Offline, [update] still starts the tool. *)
Lemma update_offline_spawns_tool :
  online (env0 0 0 false) = false
  /\ ~ short_circuits_offline (env0 0 0 false) (update (env0 0 0 false) "Game") world0.
Proof.
  split; [reflexivity|].
  unfold short_circuits_offline. intros H. specialize (H eq_refl).
  vm_compute in H. discriminate H.
Qed.

(** Online, the page is fetched under the product slug of the namespace,
    and the first requirement of the first system comes back as a hole. *)
Example getExtraInfo_online :
  let out := getExtraInfo env_store "Game" (Some "ns") world0 in
  fst out = Ok {| extra_about := Some [("description", "A game")];
                  reqs := Some [None; Some "OS"; Some "CPU"] |}
  /\ trace (snd out) =
       [EvIsOnline; EvHttp "POST" "https://www.epicgames.com/graphql";
        EvHttp "GET"
          "https://store-content.ak.epicgames.com/api/pt-BR/content/products/game-slug"].
Proof. split; reflexivity. Qed.

(** A failure after the connectivity check is caught inside
    [getExtraInfo] and gives the empty answer too. *)
Example getExtraInfo_request_fails :
  fst (getExtraInfo (env0 0 0 true) "Game" None world0) = Ok emptyExtraInfo.
Proof. reflexivity. Qed.

(* ===================================================================== *)
(** * The registry of instances *)
(* ===================================================================== *)

Lemma registry_get_run m k :
  GameRegistry.get k m =
  match m !! k with
  | Some g => (Ok (Some g), m)
  | None => (Ok (Some (GameRegistry.new_LegendaryGame k)),
             <[k := GameRegistry.new_LegendaryGame k]> m)
  end.
Proof.
  unfold GameRegistry.get. step_monad.
  destruct (m !! k) as [g|] eqn:Hk; cbn.
  - now rewrite Hk.
  - now rewrite lookup_insert_eq.
Qed.

(** X1: [LegendaryGame.get] always answers with an instance, and asking
    again for the same key answers with the same instance and leaves the
    registry as it is: an instance is created once and never replaced. *)
Theorem registry_get_idempotent m k :
  let first := GameRegistry.get k m in
  (exists g, fst first = Ok (Some g) /\ snd first !! k = Some g)
  /\ GameRegistry.get k (snd first) = first.
Proof.
  cbv zeta. rewrite !registry_get_run.
  destruct (m !! k) as [g|] eqn:Hk; cbn [fst snd].
  - split; [now exists g|]. now rewrite Hk.
  - split; [eexists; split; [reflexivity | apply lookup_insert_eq]|].
    now rewrite lookup_insert_eq.
Qed.

(** X2: an instance that exists is handed out with the state it has: a
    busy status is not reset to ['done'], and the registry is unchanged. *)
Theorem registry_get_keeps_state m k g :
  m !! k = Some g ->
  GameRegistry.get k m = (Ok (Some g), m).
Proof. intros Hk. now rewrite registry_get_run, Hk. Qed.

Lemma registry_get_keeps_state_witness :
  GameRegistry.get "Game" registry_busy
  = (Ok (Some {| GameRegistry.appName := "Game";
                 GameRegistry.state_appName := "Game";
                 GameRegistry.state_status := installing |}),
     registry_busy).
Proof.
  apply (registry_get_keeps_state registry_busy "Game").
  reflexivity.
Defined.

(** X3: [get] keeps the registry keyed by name, and it touches no other
    key than the one asked for. *)
Theorem registry_get_invariant m k :
  keyed_by_name m ->
  keyed_by_name (snd (GameRegistry.get k m))
  /\ forall k', k' <> k -> snd (GameRegistry.get k m) !! k' = m !! k'.
Proof.
  intros Hinv. rewrite registry_get_run.
  destruct (m !! k) as [g|] eqn:Hk; cbn [snd].
  - split; [exact Hinv | reflexivity].
  - split.
    + intros k' g'. destruct (decide (k' = k)) as [->|Hne].
      * rewrite lookup_insert_eq. now intros [= <-].
      * rewrite lookup_insert_ne by congruence. apply Hinv.
    + intros k' Hne. now rewrite lookup_insert_ne by congruence.
Qed.

Lemma registry_get_invariant_witness :
  keyed_by_name (snd (GameRegistry.get "Other" registry_busy))
  /\ forall k', k' <> "Other" ->
       snd (GameRegistry.get "Other" registry_busy) !! k' = registry_busy !! k'.
Proof.
  apply (registry_get_invariant registry_busy "Other").
  intros k g Hk. unfold registry_busy in Hk.
  apply lookup_singleton_Some in Hk as [<- <-]. reflexivity.
Defined.

(* ===================================================================== *)
(** * Pending updates *)
(* ===================================================================== *)

Lemma hasUpdate_elem_of listUpdateableGames appName :
  Updates.hasUpdate listUpdateableGames appName
  = bool_decide (appName ∈ listUpdateableGames).
Proof.
  unfold Updates.hasUpdate.
  induction listUpdateableGames as [|x l IH]; cbn [existsb].
  - symmetry. apply bool_decide_eq_false. apply not_elem_of_nil.
  - rewrite IH. destruct (String.eqb_spec appName x) as [->|Hne]; cbn [orb].
    + symmetry. apply bool_decide_eq_true. apply elem_of_cons. now left.
    + apply bool_decide_ext. rewrite elem_of_cons. intuition congruence.
Qed.

(** X4: for a logged-in user [hasUpdate] is membership in the list
    [checkGameUpdates] returns, as its comment says; logged out,
    [checkGameUpdates] returns the empty list whatever the library lists,
    while [hasUpdate] goes on answering from the library. *)
Theorem hasUpdate_agrees_when_logged_in listUpdateableGames appName :
  Updates.hasUpdate listUpdateableGames appName
    = bool_decide (appName ∈ Updates.checkGameUpdates true listUpdateableGames)
  /\ Updates.checkGameUpdates false listUpdateableGames = []
  /\ Updates.hasUpdate listUpdateableGames appName
      = bool_decide (appName ∈ listUpdateableGames).
Proof.
  repeat split; apply hasUpdate_elem_of.
Qed.

(* ===================================================================== *)
(** * Icons and desktop shortcuts *)
(* ===================================================================== *)

Lemma new_calls_app before cs : new_calls before (before ++ cs) = cs.
Proof. unfold new_calls. apply drop_app_length. Qed.

Lemma new_calls_nil before : new_calls before before = [].
Proof. unfold new_calls. apply drop_all. Qed.

Lemma free_of_nil c : free_of c "".
Proof. reflexivity. Qed.

Lemma free_of_app c a b : free_of c a -> free_of c b -> free_of c (a +:+ b).
Proof.
  intros Ha Hb. induction a as [|d a IH]; [exact Hb|].
  apply free_of_cons in Ha as [Hd Ha].
  change (free_of c (String d (a +:+ b))). apply free_of_cons. auto.
Qed.

(** Replacing every [c] by a text without [c] leaves no [c]. *)
Lemma replaceAll_free c by_ s : free_of c by_ -> free_of c (JS.replaceAll c by_ s).
Proof.
  intros Hby. induction s as [|d s IH]; [reflexivity|]. cbn [JS.replaceAll].
  destruct (Ascii.eqb_spec d c) as [->|Hne].
  - now apply free_of_app.
  - apply free_of_cons. auto.
Qed.

Lemma free_of_Forall c s :
  free_of c s <-> Forall (fun d => d <> c) (list_ascii_of_string s).
Proof.
  induction s as [|d s IH]; cbn [list_ascii_of_string].
  - split; [constructor | reflexivity].
  - rewrite free_of_cons, Forall_cons, IH. reflexivity.
Qed.

(** Every byte the removal of a code unit writes is above the ASCII
    range. *)
Lemma high_surrogate_bytes lead c1 c2 c3 :
  Forall (fun d => (128 <= N_of_ascii d)%N) (JS.high_surrogate lead c1 c2 c3).
Proof.
  unfold JS.high_surrogate. cbv zeta.
  assert (Hbyte : forall x, (128 <= N_of_ascii (ascii_of_N (128 + x mod 64)))%N).
  { intros x. pose proof (N.mod_lt x 64 ltac:(discriminate)) as Hlt.
    set (m := (x mod 64)%N) in *. rewrite N_ascii_embedding; [apply N.le_add_r | lia]. }
  constructor; [|constructor; [|constructor; [|constructor]]].
  - rewrite N_ascii_embedding; lia.
  - apply Hbyte.
  - apply Hbyte.
Qed.

Lemma drop_unit_rev_Forall (P : ascii -> Prop) r :
  (forall d, (128 <= N_of_ascii d)%N -> P d) ->
  Forall P r -> Forall P (JS.drop_unit_rev r).
Proof.
  intros Hhigh Hr. unfold JS.drop_unit_rev.
  repeat match goal with
         | |- Forall _ (match ?x with _ => _ end) => destruct x
         | |- Forall _ (if ?b then _ else _) => destruct b
         | H : Forall _ (_ :: _) |- _ => apply Forall_cons in H as [? ?]
         end;
    first
      [ assumption
      | apply Forall_app; split; [|assumption];
        apply Forall_rev; eapply Forall_impl; [apply high_surrogate_bytes|];
        intros d Hd; now apply Hhigh
      | repeat (constructor; try assumption) ].
Qed.

Lemma drop_last_free c s :
  (N_of_ascii c < 128)%N -> free_of c s -> free_of c (JS.drop_last s).
Proof.
  intros Hascii Hs. apply free_of_Forall. unfold JS.drop_last.
  rewrite list_ascii_of_string_of_list_ascii.
  apply Forall_rev, drop_unit_rev_Forall.
  - intros d Hd ->. lia.
  - apply Forall_rev. now apply free_of_Forall.
Qed.

(** One code unit less: a letter of one or two bytes goes whole, and of a
    character outside the basic plane the high surrogate stays. *)
Example drop_last_samples :
  JS.drop_last "C:/saves/" = "C:/saves"
  /\ JS.drop_last (String "195" (String "169" "")) = ""
  /\ JS.drop_last (String "a" (String "226" (String "130" (String "172" "")))) = "a"
  /\ JS.drop_last (String "240" (String "159" (String "152" (String "128" ""))))
     = String "237" (String "160" (String "189" ""))
  /\ JS.drop_last "" = "".
Proof. repeat split; reflexivity. Qed.

(** The whole effect of [getIcon]. *)
Lemma getIcon_run env cfg appName cs :
  exists ext, (ext = "jpg" \/ ext = "png") /\
    let folder := Desktop.heroicIconFolder cfg in
    let image := JS.replaceAll " " "_" (Desktop.art_square (Desktop.gameInfo cfg)) in
    let icon := folder +:+ "/" +:+ appName +:+ "." +:+ ext in
    let command := "curl '" +:+ image +:+ "' --output " +:+ icon in
    let cs1 :=
      cs ++ (if existsSync env folder then [] else [Desktop.MkdirSync folder false]) in
    Desktop.getIcon env cfg appName cs =
      if negb (existsSync env folder) && negb (Desktop.mkdirSync_ok cfg folder)
      then (Throw (Rejected "mkdirSync"), cs1)
      else if existsSync env icon then (Ok icon, cs1)
      else if (exit_code (run env command) =? 0)%Z
           then (Ok icon, cs1 ++ [Desktop.Exec command])
           else (Throw (ExecError (exit_code (run env command))
                          (exit_stderr (run env command))),
                 cs1 ++ [Desktop.Exec command]).
Proof.
  unfold Desktop.getIcon, Desktop.getGameInfo, Desktop.mkdirSync, Desktop.execAsync,
    Desktop.out.
  cbv zeta. step_monad.
  set (e := List.rev (JS.split "."
              (JS.replaceAll " " "_" (Desktop.art_square (Desktop.gameInfo cfg)))) !! 0%nat).
  assert (Hext : exists ext, (ext = "jpg" \/ ext = "png") /\
            (if negb (bool_decide (e = Some "jpg")) && negb (bool_decide (e = Some "png"))
             then "jpg" else JS.interp e) = ext).
  { destruct (decide (e = Some "jpg")) as [He|H1].
    - exists "jpg". split; [now left|]. rewrite He. reflexivity.
    - destruct (decide (e = Some "png")) as [He|H2].
      + exists "png". split; [now right|]. rewrite He. reflexivity.
      + exists "jpg". split; [now left|].
        rewrite !bool_decide_eq_false_2 by assumption. reflexivity. }
  destruct Hext as [ext [Hcase ->]]. exists ext. split; [exact Hcase|].
  destruct (existsSync env (Desktop.heroicIconFolder cfg)); cbn [negb andb];
    rewrite ?app_nil_r;
    [|destruct (Desktop.mkdirSync_ok cfg _); cbn [negb]; [|reflexivity]];
    destruct (existsSync env _); cbn [negb]; try reflexivity;
    destruct (_ =? _)%Z; reflexivity.
Qed.

(** X5: [getIcon] answers with [heroicIconFolder/appName.ext] where [ext]
    is [jpg] or [png], whatever the cover's URL ends in.  It creates the
    icon folder when that is missing, and it downloads the cover only
    when the icon file does not exist yet; the call fails exactly when
    the folder cannot be created or that download exits with another
    code than zero. *)
Theorem getIcon_outcome env cfg appName cs :
  exists ext, (ext = "jpg" \/ ext = "png") /\
    let folder := Desktop.heroicIconFolder cfg in
    let image := JS.replaceAll " " "_" (Desktop.art_square (Desktop.gameInfo cfg)) in
    let icon := folder +:+ "/" +:+ appName +:+ "." +:+ ext in
    let command := "curl '" +:+ image +:+ "' --output " +:+ icon in
    let cs1 :=
      cs ++ (if existsSync env folder then [] else [Desktop.MkdirSync folder false]) in
    Desktop.getIcon env cfg appName cs =
      if negb (existsSync env folder) && negb (Desktop.mkdirSync_ok cfg folder)
      then (Throw (Rejected "mkdirSync"), cs1)
      else if existsSync env icon then (Ok icon, cs1)
      else if (exit_code (run env command) =? 0)%Z
           then (Ok icon, cs1 ++ [Desktop.Exec command])
           else (Throw (ExecError (exit_code (run env command))
                          (exit_stderr (run env command))),
                 cs1 ++ [Desktop.Exec command]).
Proof.
  destruct (getIcon_run env cfg appName cs) as [ext [Hext Hrun]].
  exists ext. split; [exact Hext | exact Hrun].
Qed.

(** X6: the only command [getIcon] runs is [curl] on the cover's URL, and
    the URL it passes holds no space (each one was replaced by an
    underscore). *)
Theorem getIcon_download_unspaced env cfg appName cs command :
  In (Desktop.Exec command) (new_calls cs (snd (Desktop.getIcon env cfg appName cs))) ->
  let image := JS.replaceAll " " "_" (Desktop.art_square (Desktop.gameInfo cfg)) in
  free_of " " image
  /\ exists icon, command = "curl '" +:+ image +:+ "' --output " +:+ icon.
Proof.
  intros Hin. cbv zeta. split; [now apply replaceAll_free|].
  destruct (getIcon_run env cfg appName cs) as [ext [_ Hrun]].
  cbv zeta in Hrun. rewrite Hrun in Hin. clear Hrun.
  destruct (existsSync env (Desktop.heroicIconFolder cfg));
    destruct (Desktop.mkdirSync_ok cfg _); cbn [negb andb] in Hin;
    try destruct (existsSync env _); try destruct (_ =? _)%Z; cbn [snd] in Hin;
    rewrite <- ?app_assoc, ?app_nil_r, ?new_calls_app, ?new_calls_nil in Hin;
    cbn in Hin; intuition (try discriminate).
  all: match goal with H : Desktop.Exec _ = Desktop.Exec _ |- _ =>
         injection H as <-; eexists; reflexivity end.
Qed.

Lemma getIcon_download_unspaced_witness :
  free_of " " "https://cdn.example.org/the_game.png"
  /\ exists icon,
       "curl 'https://cdn.example.org/the_game.png' --output /cfg/icons/Game.png"
       = "curl '" +:+ "https://cdn.example.org/the_game.png" +:+ "' --output " +:+ icon.
Proof.
  apply (getIcon_download_unspaced (env_bare 0) cfg0 "Game" []
           "curl 'https://cdn.example.org/the_game.png' --output /cfg/icons/Game.png").
  vm_compute. right. left. reflexivity.
Defined.

(** The whole effect of [addDesktopShortcut] on Linux, from what [getIcon]
    does. *)
Lemma addDesktopShortcut_linux env cfg fromMenu cs :
  platform env = linux ->
  let info := Desktop.gameInfo cfg in
  let desktop := home env +:+ "/Desktop/" +:+ Desktop.title info +:+ ".desktop" in
  let applications :=
    home env +:+ "/.local/share/applications/" +:+ Desktop.title info +:+ ".desktop" in
  Desktop.addDesktopShortcut env cfg fromMenu cs =
  match Desktop.getIcon env cfg (Desktop.app_name info) cs with
  | (Ok icon, cs1) =>
      (Ok tt,
       cs1 ++
       (if Desktop.enableDesktopShortcutsOnDesktop cfg || default false fromMenu
        then [Desktop.WriteFile desktop (Desktop.shortcut_text info icon)
                ["Shortcut saved on " +:+ desktop]]
        else []) ++
       (if Desktop.enableDesktopShortcutsOnStartMenu cfg || default false fromMenu
        then [Desktop.WriteFile applications (Desktop.shortcut_text info icon)
                ["Shortcut saved on " +:+ applications]]
        else []))
  | (Throw e, cs1) => (Throw e, cs1)
  end.
Proof.
  intros Hlinux. cbv zeta.
  unfold Desktop.addDesktopShortcut, Desktop.getGameInfo, Desktop.out.
  rewrite Hlinux. step_monad.
  destruct (Desktop.getIcon _ _ _ cs) as [[icon|e] cs1]; [|reflexivity].
  destruct (_ || _); destruct (_ || _); cbn;
    rewrite <- ?app_assoc, ?app_nil_r; reflexivity.
Qed.

(** X7: away from Linux, [addDesktopShortcut] and [removeDesktopShortcut]
    return at once: no icon is fetched, no file is written or unlinked. *)
Theorem shortcuts_only_on_linux env cfg fromMenu cs :
  platform env <> linux ->
  Desktop.addDesktopShortcut env cfg fromMenu cs = (Ok tt, cs)
  /\ Desktop.removeDesktopShortcut env cfg cs = (Ok tt, cs).
Proof.
  intros Hother.
  unfold Desktop.addDesktopShortcut, Desktop.removeDesktopShortcut.
  destruct (platform env); [now elim Hother|..]; split; reflexivity.
Qed.

Lemma shortcuts_only_on_linux_witness :
  Desktop.addDesktopShortcut (env_windows 0) cfg0 (Some true) [] = (Ok tt, [])
  /\ Desktop.removeDesktopShortcut (env_windows 0) cfg0 [] = (Ok tt, []).
Proof.
  apply (shortcuts_only_on_linux (env_windows 0) cfg0 (Some true) []).
  discriminate.
Defined.

(** X8: on Linux, once the icon is there, [addDesktopShortcut] writes the
    desktop file exactly when shortcuts on the desktop are enabled or the
    call comes from the menu, and the applications file exactly when
    start-menu shortcuts are enabled or the call comes from the menu; it
    writes nothing else.  When the icon cannot be fetched it writes
    nothing at all. *)
Theorem addDesktopShortcut_writes env cfg fromMenu cs :
  platform env = linux ->
  let info := Desktop.gameInfo cfg in
  let desktop := home env +:+ "/Desktop/" +:+ Desktop.title info +:+ ".desktop" in
  let applications :=
    home env +:+ "/.local/share/applications/" +:+ Desktop.title info +:+ ".desktop" in
  let out := Desktop.addDesktopShortcut env cfg fromMenu cs in
  written (new_calls cs (snd out)) =
    match fst out with
    | Ok _ =>
        (if Desktop.enableDesktopShortcutsOnDesktop cfg || default false fromMenu
         then [desktop] else []) ++
        (if Desktop.enableDesktopShortcutsOnStartMenu cfg || default false fromMenu
         then [applications] else [])
    | Throw _ => []
    end.
Proof.
  intros Hlinux. cbv zeta.
  rewrite (addDesktopShortcut_linux _ _ _ _ Hlinux). cbv zeta.
  destruct (getIcon_run env cfg (Desktop.app_name (Desktop.gameInfo cfg)) cs)
    as [ext [_ Hrun]].
  cbv zeta in Hrun. rewrite Hrun. clear Hrun.
  destruct (existsSync env (Desktop.heroicIconFolder cfg));
    destruct (Desktop.mkdirSync_ok cfg _); cbn [negb andb];
    try destruct (existsSync env _); try destruct (_ =? _)%Z; cbn [fst snd];
    rewrite <- ?app_assoc, ?app_nil_r, ?new_calls_app, ?new_calls_nil;
    destruct (Desktop.enableDesktopShortcutsOnDesktop cfg || default false fromMenu);
    destruct (Desktop.enableDesktopShortcutsOnStartMenu cfg || default false fromMenu);
    reflexivity.
Qed.


Lemma addDesktopShortcut_writes_witness :
  let out := Desktop.addDesktopShortcut (env_bare 0) cfg0 None [] in
  written (new_calls [] (snd out)) =
    match fst out with
    | Ok _ => (if true || default false None
               then ["/home/u" +:+ "/Desktop/" +:+ "The Game" +:+ ".desktop"] else []) ++
              (if false || default false None
               then ["/home/u" +:+ "/.local/share/applications/" +:+ "The Game"
                       +:+ ".desktop"] else [])
    | Throw _ => []
    end.
Proof.
  apply (addDesktopShortcut_writes (env_bare 0) cfg0 None []).
  reflexivity.
Defined.

(** X9: [removeDesktopShortcut] unlinks exactly the files a call of
    [addDesktopShortcut] from the menu writes, in the same order. *)
Theorem remove_targets_what_add_writes env cfg cs cs' :
  platform env = linux ->
  fst (Desktop.addDesktopShortcut env cfg (Some true) cs) = Ok tt ->
  unlinked (new_calls cs' (snd (Desktop.removeDesktopShortcut env cfg cs')))
  = written (new_calls cs (snd (Desktop.addDesktopShortcut env cfg (Some true) cs))).
Proof.
  intros Hlinux Hok.
  assert (Hunlinked :
    unlinked (new_calls cs' (snd (Desktop.removeDesktopShortcut env cfg cs')))
    = [home env +:+ "/Desktop/" +:+ Desktop.title (Desktop.gameInfo cfg) +:+ ".desktop";
       home env +:+ "/.local/share/applications/"
         +:+ Desktop.title (Desktop.gameInfo cfg) +:+ ".desktop"]).
  { unfold Desktop.removeDesktopShortcut, Desktop.getGameInfo, Desktop.out.
    rewrite Hlinux. step_monad. cbn [snd].
    rewrite <- app_assoc, new_calls_app. reflexivity. }
  rewrite Hunlinked. clear Hunlinked.
  rewrite (addDesktopShortcut_linux _ _ _ _ Hlinux) in Hok |- *. cbv zeta in Hok |- *.
  destruct (getIcon_run env cfg (Desktop.app_name (Desktop.gameInfo cfg)) cs)
    as [ext [_ Hrun]].
  cbv zeta in Hrun. rewrite Hrun in Hok |- *. clear Hrun.
  rewrite !orb_true_r in Hok |- *.
  destruct (existsSync env (Desktop.heroicIconFolder cfg));
    destruct (Desktop.mkdirSync_ok cfg _); cbn [negb andb] in Hok |- *;
    try destruct (existsSync env _); try destruct (_ =? _)%Z;
    cbn [fst snd] in Hok |- *; try discriminate Hok;
    rewrite <- ?app_assoc, ?app_nil_r, ?new_calls_app; reflexivity.
Qed.

Lemma remove_targets_what_add_writes_witness :
  unlinked (new_calls [] (snd (Desktop.removeDesktopShortcut (env_bare 0) cfg0 [])))
  = written (new_calls []
               (snd (Desktop.addDesktopShortcut (env_bare 0) cfg0 (Some true) []))).
Proof.
  apply (remove_targets_what_add_writes (env_bare 0) cfg0 [] []); reflexivity.
Defined.

(* ===================================================================== *)
(** * syncSaves and stop *)
(* ===================================================================== *)

(** X10: the save path [syncSaves] puts between double quotes on the
    command line never holds a single quote, on either platform: the
    quotes of the given path are removed, and cutting the last code unit
    on Windows brings none back. *)
Theorem syncSaves_path_unquoted env path :
  free_of "'" (Desktop.fixedPath env path).
Proof.
  unfold Desktop.fixedPath.
  destruct (isWindows env).
  - apply drop_last_free; [reflexivity|]. apply replaceAll_free, free_of_nil.
  - apply replaceAll_free, free_of_nil.
Qed.

(** On Windows a quoted path loses its quotes and its last character. *)
Example fixedPath_windows :
  Desktop.fixedPath (env_windows 0) "'C:/My Saves/'" = "C:/My Saves"
  /\ Desktop.fixedPath (env_bare 0) "'/home/u/My Saves'" = "/home/u/My Saves".
Proof. split; reflexivity. Qed.

(** X11: [syncSaves] creates the folder [home/legendary/.saves] exactly
    when it is missing, always before it starts the tool; when the folder
    cannot be created the tool is not started.  Otherwise the tool's
    command is the last call it makes and [syncSaves] settles as the tool
    exits. *)
Theorem syncSaves_prepares_folder env cfg appName arg path cs :
  let command := Desktop.syncSaves_command env appName arg path in
  let saves := home env +:+ "/legendary/.saves" in
  let r := run env command in
  let mk := if existsSync env saves then [] else [Desktop.MkdirSync saves true] in
  Desktop.syncSaves env cfg appName arg path cs =
  if negb (existsSync env saves) && negb (Desktop.mkdirSync_ok cfg saves)
  then (Throw (Rejected "mkdirSync"), cs ++ mk)
  else
    (if (exit_code r =? 0)%Z
     then Ok {| stdout := exit_stdout r; stderr := exit_stderr r |}
     else Throw (ExecError (exit_code r) (exit_stderr r)),
     cs ++ mk ++ [Desktop.LogInfo [JS.nl +:+ " syncing saves for "; appName];
                  Desktop.Exec command]).
Proof.
  cbv zeta.
  unfold Desktop.syncSaves, Desktop.mkdirSync, Desktop.execAsync, Desktop.out.
  step_monad.
  destruct (existsSync env _); cbn [negb andb];
    [|destruct (Desktop.mkdirSync_ok cfg _); cbn [negb]; [|reflexivity]];
    destruct (_ =? _)%Z; cbn; rewrite <- ?app_assoc; reflexivity.
Qed.

(** X12: the promise of [stop] never rejects.  On Windows a failing
    [Stop-Process] is caught and logged; elsewhere [pkill] is spawned and
    not awaited. *)
Theorem stop_never_rejects env appName cs :
  fst (Desktop.stop env appName cs) = Ok tt.
Proof.
  unfold Desktop.stop, Desktop.execAsync, Desktop.out. step_monad.
  destruct (platform env); try reflexivity.
  destruct (_ =? _)%Z; reflexivity.
Qed.



(** On Linux [stop] spawns [pkill -f] on the entity's name. *)
Example stop_linux :
  Desktop.stop (env_bare 0) "Game" []
  = (Ok tt, [Desktop.LogInfo ["killing"; "Game"];
             Desktop.Spawn "pkill" ["-f"; "Game"] ["Game killed"]]).
Proof. reflexivity. Qed.

(** On Windows a failing [Stop-Process] ends in a logged error. *)
Example stop_windows_failure :
  Desktop.stop (env_windows 1) "Game" []
  = (Ok tt, [Desktop.LogInfo ["killing"; "legendary"];
             Desktop.Exec "Stop-Process -name  legendary";
             Desktop.LogError ["not possible to kill legendary"]
               (Some (ExecError 1 ""))]).
Proof. reflexivity. Qed.

(* ===================================================================== *)
(** * The other handlers of the tool manager *)
(* ===================================================================== *)

(** X14: the handler of ['refreshToolVersionInfo'] never rejects: when
    [updateToolVersionInfos] fails, the error is logged on the store the
    failed refresh left behind and the handler returns normally. *)
Theorem refreshToolVersionInfo_never_rejects
    {Store} (logError : js_error -> Store -> Store)
    (updateToolVersionInfos : option bool -> M Store unit) fetch s :
  ToolManagerIpc.refreshToolVersionInfo_handler Store logError updateToolVersionInfos fetch s
  = match updateToolVersionInfos fetch s with
    | (Ok _, s') => (Ok tt, s')
    | (Throw e, s') => (Ok tt, logError e s')
    end.
Proof.
  unfold ToolManagerIpc.refreshToolVersionInfo_handler. step_monad.
  destruct (updateToolVersionInfos fetch s) as [[[]|e] s']; reflexivity.
Qed.

Example refresh_failure_is_logged :
  ToolManagerIpc.refreshToolVersionInfo_handler _ log_on_list refresh_fails (Some true) []
  = (Ok tt, [Rejected "fetch failed"]).
Proof. reflexivity. Qed.

(** X15: when [installToolVersion] rejects instead of resolving, the
    handler of ['installToolVersion'] rejects with the same error and
    [deleteAbortController] is not called: the registry and the calls
    made to it are as the install left them. *)
Theorem handler_rejection_skips_cleanup
    {ProgressInfo}
    (install :
       ToolManager.ToolVersionInfo ->
       (ToolManager.State -> option ProgressInfo ->
        M (ToolManager.Backend ProgressInfo) unit) ->
       ToolManager.AbortController ->
       M (ToolManager.Backend ProgressInfo) ToolManager.InstallOutcome)
    release b controller b1 e b2 :
  ToolManager.createAbortController _ (ToolManager.version release) b = (Ok controller, b1) ->
  install release (ToolManager.onProgress _ release) controller b1 = (Throw e, b2) ->
  let out := ToolManager.installToolVersion_handler _ install release b in
  fst out = Throw e
  /\ ToolManager.registry_calls _ (snd out) = ToolManager.registry_calls _ b2
  /\ ToolManager.abortControllers _ (snd out) = ToolManager.abortControllers _ b2.
Proof.
  intros Hcreate Hinstall. cbv zeta.
  rewrite (handler_rejection_skips_delete install release b controller b1 e b2
             Hcreate Hinstall).
  repeat split.
Qed.

Lemma handler_rejection_skips_cleanup_witness :
  let out := ToolManager.installToolVersion_handler unit install_rejects release0 backend0 in
  fst out = Throw (Rejected "ENOSPC")
  /\ ToolManager.registry_calls _ (snd out)
     = [ToolManager.CreateAbortController "Wine-GE-Proton7-1"]
  /\ ToolManager.abortControllers _ (snd out)
     = <["Wine-GE-Proton7-1" := {| ToolManager.signal_aborted := false |}]> ∅.
Proof.
  refine (handler_rejection_skips_cleanup install_rejects release0 backend0
            {| ToolManager.signal_aborted := false |}
            {| ToolManager.abortControllers :=
                 <["Wine-GE-Proton7-1" := {| ToolManager.signal_aborted := false |}]> ∅;
               ToolManager.registry_calls :=
                 [ToolManager.CreateAbortController "Wine-GE-Proton7-1"];
               ToolManager.sent := [] |}
            (Rejected "ENOSPC")
            {| ToolManager.abortControllers :=
                 <["Wine-GE-Proton7-1" := {| ToolManager.signal_aborted := false |}]> ∅;
               ToolManager.registry_calls :=
                 [ToolManager.CreateAbortController "Wine-GE-Proton7-1"];
               ToolManager.sent :=
                 [("progressOfToolManagerWine-GE-Proton7-1",
                   ToolManager.downloading, Some tt)] |} _ _).
  - reflexivity.
  - reflexivity.
Defined.

(* ===================================================================== *)
(** * The tool item *)
(* ===================================================================== *)

Lemma digits_nonempty n : digits n <> "".
Proof. apply of_number_nonempty. Qed.

Lemma two_digits_length n : (n < 60)%N -> String.length (two_digits n) = 2.
Proof.
  intros Hn.
  assert (Hall : forallb (fun k => Nat.eqb (String.length (two_digits (N.of_nat k))) 2)
                   (seq 0 60) = true) by (vm_compute; reflexivity).
  rewrite forallb_forall in Hall. specialize (Hall (N.to_nat n)).
  rewrite N2Nat.id in Hall. apply Nat.eqb_eq, Hall, in_seq. lia.
Qed.

(** X16: for a whole number of seconds, the time [getProgressElement]
    displays is [M:SS] below one hour and [H:MM:SS] from one hour on,
    where the hours, minutes and seconds add up to [eta]; the seconds
    always take two places, the minutes do from one hour on, and a zero
    hour is left out while zero minutes are shown as [0]. *)
Theorem formattedTime_clock eta :
  let hours := (eta / 3600)%N in
  let minutes := (eta mod 3600 / 60)%N in
  let seconds := (eta mod 3600 mod 60)%N in
  (eta = hours * 3600 + minutes * 60 + seconds)%N
  /\ (minutes < 60)%N /\ (seconds < 60)%N
  /\ String.length (two_digits minutes) = 2
  /\ String.length (two_digits seconds) = 2
  /\ ToolItem.formattedTime eta =
       (if (hours =? 0)%N
        then digits minutes +:+ ":" +:+ two_digits seconds
        else digits hours +:+ ":" +:+ two_digits minutes +:+ ":" +:+ two_digits seconds).
Proof.
  cbv zeta.
  assert (Hm : (eta mod 3600 < 3600)%N) by (apply N.mod_lt; discriminate).
  assert (Hs : (eta mod 3600 mod 60 < 60)%N) by (apply N.mod_lt; discriminate).
  assert (Hmin : (eta mod 3600 / 60 < 60)%N).
  { apply N.Div0.div_lt_upper_bound. exact Hm. }
  pose proof (N.div_mod eta 3600 ltac:(discriminate)) as H1.
  pose proof (N.div_mod (eta mod 3600) 60 ltac:(discriminate)) as H2.
  split; [lia|]. split; [exact Hmin|]. split; [exact Hs|].
  split; [now apply two_digits_length|]. split; [now apply two_digits_length|].
  unfold ToolItem.formattedTime. cbv zeta.
  set (h := (eta / 3600)%N). set (m := (eta mod 3600 / 60)%N).
  set (s := (eta mod 3600 mod 60)%N).
  set (cm := if (9 <? m)%N then _ else _).
  set (cs := if (9 <? s)%N then _ else _).
  assert (Hbig : forall n, (9 <? n)%N = true -> (n =? 0)%N = false).
  { intros n Hn. apply N.ltb_lt in Hn. apply N.eqb_neq. lia. }
  assert (Hcm : ToolItem.truthy cm = true
                /\ ToolItem.to_string cm
                   = if (h =? 0)%N then digits m else two_digits m).
  { subst cm. unfold two_digits. cbn [ToolItem.truthy].
    destruct (9 <? m)%N eqn:H9.
    - cbn [ToolItem.truthy ToolItem.to_string]. rewrite (Hbig _ H9).
      split; [reflexivity | now destruct (h =? 0)%N].
    - destruct (h =? 0)%N; cbn [negb].
      + destruct (m =? 0)%N eqn:Hm0; cbn [negb ToolItem.truthy ToolItem.to_string].
        * apply N.eqb_eq in Hm0. rewrite Hm0. split; reflexivity.
        * rewrite Hm0. split; reflexivity.
      + split; reflexivity. }
  assert (Hcs : ToolItem.truthy cs = true /\ ToolItem.to_string cs = two_digits s).
  { subst cs. unfold two_digits. destruct (9 <? s)%N eqn:H9.
    - cbn [ToolItem.truthy ToolItem.to_string]. rewrite (Hbig _ H9). split; reflexivity.
    - split; reflexivity. }
  destruct Hcm as [Hcm1 Hcm2]. destruct Hcs as [Hcs1 Hcs2].
  cbn [List.filter]. rewrite Hcm1, Hcs1. cbn [ToolItem.truthy].
  destruct (h =? 0)%N; cbn [negb map JS.join]; rewrite Hcm2, Hcs2; reflexivity.
Qed.

Example formattedTime_samples :
  ToolItem.formattedTime 5 = "0:05"
  /\ ToolItem.formattedTime 75 = "1:15"
  /\ ToolItem.formattedTime 3600 = "1:00:00"
  /\ ToolItem.formattedTime 3725 = "1:02:05"
  /\ ToolItem.formattedTime 86399 = "23:59:59".
Proof. repeat split; reflexivity. Qed.

(** X17: the main button is coherent: its icon, its title and the size
    column all follow from what a click does.  The download arrow and
    the title [Install v] appear exactly when a click installs; progress
    or [Unzipping] is shown exactly when a click aborts; an installed
    version always offers removal, whatever state the last progress
    event left. *)
Theorem main_button_coherent version isInstalled state :
  let action := ToolItem.handleMainActionClick isInstalled state in
  ToolItem.mainActionIcon isInstalled state =
    match action with
    | ToolItem.install => ToolItem.DownIcon
    | _ => ToolItem.StopIcon
    end
  /\ ToolItem.mainIconTitle version isInstalled state =
       match action with
       | ToolItem.remove => "Uninstall " +:+ version
       | ToolItem.abort => "Cancel " +:+ version +:+ " installation"
       | ToolItem.install => "Install " +:+ version
       end
  /\ ToolItem.renderStatus isInstalled state =
       match action with
       | ToolItem.remove => ToolItem.DiskSize
       | ToolItem.abort =>
           if ToolItem.isDownloading state then ToolItem.ProgressElement
           else ToolItem.Unzipping
       | ToolItem.install => ToolItem.DownloadSize
       end
  /\ action = (if isInstalled then ToolItem.remove else action).
Proof.
  destruct isInstalled, state; repeat split; reflexivity.
Qed.

(* ===================================================================== *)
(** * launch and the Discord presence *)
(* ===================================================================== *)

Lemma quiet_emit e :
  e <> EvDiscordDisconnect -> maintains (fun w => ~ disconnected w) (emit e).
Proof.
  intros He w Hw. unfold disconnected, emit, modify in *. cbn [snd trace].
  rewrite in_app_iff. intros [H|[H|[]]]; [now apply Hw | now apply He].
Qed.

Lemma quiet_set_status s : maintains (fun w => ~ disconnected w) (set_status s).
Proof. intros w Hw. exact Hw. Qed.

Lemma quiet_execAsync env command :
  maintains (fun w => ~ disconnected w) (execAsync env command).
Proof.
  unfold execAsync. apply maintains_bind; [now apply quiet_emit|]. intros _.
  cbn zeta. destruct (_ =? _)%Z; [apply maintains_ret | apply maintains_throw].
Qed.

Lemma quiet_getGameInfo env appName :
  maintains (fun w => ~ disconnected w) (getGameInfo env appName).
Proof.
  unfold getGameInfo. apply maintains_bind; [apply maintains_get|].
  intros w. apply maintains_ret.
Qed.

Lemma quiet_DXVK_install env prefix :
  maintains (fun w => ~ disconnected w) (DXVK_install env prefix).
Proof.
  unfold DXVK_install. apply maintains_bind; [now apply quiet_emit|]. intros _.
  destruct (dxvk_ok env); [apply maintains_ret | apply maintains_throw].
Qed.

Ltac walk_quiet :=
  repeat first
    [ apply quiet_set_status
    | apply quiet_execAsync
    | apply quiet_getGameInfo
    | apply quiet_DXVK_install
    | apply quiet_emit; discriminate
    | apply maintains_ret
    | apply maintains_throw
    | apply maintains_get
    | apply maintains_member
    | apply maintains_bind; [|intro]
    | apply maintains_try_catch; [|intro]
    | progress (unfold logInfo, logWarning, logError)
    | match goal with
      | |- maintains _ (if ?b then _ else _) => destruct b
      | |- maintains _ (match ?x with _ => _ end) => destruct x
      end ].

Lemma disconnects_bind_keep {A B} (c : M World A) (f : A -> M World B) :
  maintains (fun w => ~ disconnected w) c ->
  (forall a, disconnects_on_return (f a)) ->
  disconnects_on_return (c ≫= f).
Proof.
  intros Hc Hf w Hw. specialize (Hc w Hw).
  unfold mbind, M_bind. destruct (c w) as [[a|e] w1]; cbn [snd] in Hc.
  - now apply Hf.
  - exact Hc.
Qed.

Lemma disconnects_final {A} message (v : A) :
  disconnects_on_return (emit EvDiscordDisconnect;; logInfo message;; mret v).
Proof.
  intros w _. unfold disconnected, logInfo, emit. step_monad. cbn [trace].
  rewrite !in_app_iff. left. right. now left.
Qed.

(** X18: [launch] disconnects the Discord presence exactly when it
    resolves.  When any awaited step rejects (the game command, the
    creation of the Proton prefix, the DXVK installation), [launch]
    rejects without calling [DiscordRPC.disconnect()], also when it had
    published the presence before. *)
Theorem launch_disconnects_iff_resolves env appName w :
  ~ disconnected w ->
  match launch env appName w with
  | (Ok _, w') => disconnected w'
  | (Throw _, w') => ~ disconnected w'
  end.
Proof.
  revert w. change (disconnects_on_return (launch env appName)).
  unfold launch. cbv zeta.
  repeat first
    [ apply disconnects_final
    | apply disconnects_bind_keep; [solve [walk_quiet] | intro]
    | match goal with
      | |- disconnects_on_return (if ?b then _ else _) => destruct b
      end ].
Qed.

Lemma launch_disconnects_iff_resolves_witness :
  match launch (env_bare 1) "Game" world0 with
  | (Ok _, w') => disconnected w'
  | (Throw _, w') => ~ disconnected w'
  end.
Proof.
  apply (launch_disconnects_iff_resolves (env_bare 1) "Game" world0).
  intros [].
Defined.

(** The game exits with code 1 after the presence was published: it stays
    published. *)
Example launch_failure_leaves_presence :
  let out := launch (env_bare 1) "Game" world0 in
  fst out = Throw (ExecError 1 "")
  /\ In (EvDiscordUpdate "Game" "via Heroic on Linux") (trace (snd out))
  /\ ~ In EvDiscordDisconnect (trace (snd out)).
Proof.
  vm_compute. repeat split; [tauto|].
  intros H. repeat (destruct H as [H|H]; [discriminate H|]). exact H.
Qed.

(* ===================================================================== *)
(** * getExtraInfo *)
(* ===================================================================== *)

Lemma never_throws_ret {S A} (a : A) : never_throws (@mret (M S) _ A a).
Proof. intros s. now exists a. Qed.

Lemma never_throws_bind {S A B} (c : M S A) (f : A -> M S B) :
  never_throws c -> (forall a, never_throws (f a)) -> never_throws (c ≫= f).
Proof.
  intros Hc Hf s. destruct (Hc s) as [a Ha].
  unfold mbind, M_bind. destruct (c s) as [[a'|e] s1]; cbn [fst] in Ha; [|discriminate].
  apply Hf.
Qed.

Lemma never_throws_catch_ret {S A} (c : M S A) (dflt : A) :
  never_throws (try_catch c (fun _ => mret dflt)).
Proof.
  intros s. unfold try_catch. destruct (c s) as [[a|e] s1]; eexists; reflexivity.
Qed.

Lemma never_throws_emit e : never_throws (emit e).
Proof. intros s. now exists tt. Qed.

(** Case analysis on the properties a walk through the answer reads. *)
Ltac split_reads :=
  repeat (match goal with
          | |- context [match ?x with _ => _ end] =>
              match x with
              | _ !! _ => destruct x
              | page_data _ => destruct x
              | requirements _ => destruct x
              | systems _ => destruct x
              | details _ => destruct x
              | List.find _ _ => destruct x
              end
          end; cbn beta iota zeta; cbn [fst snd]; try reflexivity).

(** X19: called without a namespace ([null] or the empty string),
    [getExtraInfo] never rejects, and its answer is the empty [ExtraInfo]
    in every case but one: offline, when the request fails, and when any
    link of the walk through the answer is missing, it is
    [{about: {}, reqs: []}]; only a complete walk gives the page's own
    [about] and requirements. *)
Theorem getExtraInfo_total_without_namespace env appName namespace w :
  JS.truthy namespace = false ->
  fst (getExtraInfo env appName namespace w) =
    Ok (if online env
        then default emptyExtraInfo
               (content env (product_url env appName) ≫= product_page_info)
        else emptyExtraInfo).
Proof.
  intros Hns.
  unfold getExtraInfo, isOnline, delete_first_detail, emit, product_url,
    product_page_info.
  step_monad. rewrite Hns. destruct (online env); [|reflexivity].
  cbn [negb]. step_monad.
  destruct (content env _) as [pages|]; [|reflexivity].
  step_monad. unfold option_bind. cbn beta iota zeta.
  split_reads.
Qed.

Lemma getExtraInfo_total_without_namespace_witness :
  fst (getExtraInfo (env0 0 0 true) "Game" (Some "") world0) =
    Ok (if online (env0 0 0 true)
        then default emptyExtraInfo
               (content (env0 0 0 true) (product_url (env0 0 0 true) "Game")
                  ≫= product_page_info)
        else emptyExtraInfo).
Proof.
  apply (getExtraInfo_total_without_namespace (env0 0 0 true) "Game" (Some "") world0).
  reflexivity.
Defined.

(** The page is served but its first system lists no details: the answer
    is the empty one. *)
Example getExtraInfo_broken_walk :
  fst (getExtraInfo
         {| legendaryBin := ""; heroicGamesConfigPath := ""; home := "";
            isWindows := false; platform := linux; maxWorkers := 0;
            discordRPC := false; language := "en"; gameSettings := settings0;
            titleOf := fun a => a; existsSync := fun _ => true;
            run := fun _ => {| exit_code := 0; exit_stdout := ""; exit_stderr := "" |};
            dxvk_ok := true; online := true; catalogOffers := fun _ => None;
            content := fun _ =>
              Some [ {| page_type := "productHome";
                        page_data := Some
                          {| data_about := Some [("description", "A game")];
                             requirements := Some
                               {| systems := Some [ {| details := None |} ] |} |} |} ] |}
         "Game" None world0)
  = Ok emptyExtraInfo.
Proof. reflexivity. Qed.

(** X20: called online with a namespace, [getExtraInfo] looks the product
    slug up outside its [try]: when that lookup fails the whole call
    rejects, and the product page is never requested. *)
Theorem getExtraInfo_rejects_on_catalog_failure env appName namespace w :
  online env = true ->
  JS.truthy namespace = true ->
  catalogOffers env (JS.interp namespace) = None ->
  getExtraInfo env appName namespace w =
    (Throw (TypeError "data"),
     {| status := status w; installed := installed w; install_path := install_path w;
        ipc_channels := ipc_channels w;
        trace := trace w ++ [EvIsOnline; EvHttp "POST" "https://www.epicgames.com/graphql"] |}).
Proof.
  intros Hon Hns Hcat.
  unfold getExtraInfo, isOnline, getProductSlug, emit. step_monad.
  rewrite Hon, Hns. cbn [negb]. step_monad. rewrite Hcat. cbn.
  rewrite <- app_assoc. reflexivity.
Qed.

Lemma getExtraInfo_rejects_on_catalog_failure_witness :
  getExtraInfo (env0 0 0 true) "Game" (Some "ns") world0 =
    (Throw (TypeError "data"),
     {| status := done; installed := ∅; install_path := ∅; ipc_channels := [];
        trace := [] ++ [EvIsOnline; EvHttp "POST" "https://www.epicgames.com/graphql"] |}).
Proof.
  apply (getExtraInfo_rejects_on_catalog_failure (env0 0 0 true) "Game" (Some "ns") world0);
    reflexivity.
Defined.

(** X21: when the catalogue lists no product slug for the namespace,
    [getProductSlug] falls back on the entity's own name: the answer of
    [getExtraInfo] is the one it gives without a namespace. *)
Theorem getExtraInfo_falls_back_on_appName env appName namespace elements w :
  online env = true ->
  JS.truthy namespace = true ->
  catalogOffers env (JS.interp namespace) = Some elements ->
  List.find JS.truthy elements = None ->
  fst (getExtraInfo env appName namespace w) = fst (getExtraInfo env appName None w).
Proof.
  intros Hon Hns Hcat Hfind.
  unfold getExtraInfo, isOnline, getProductSlug, delete_first_detail, emit. step_monad.
  rewrite Hon, Hns. cbn [negb JS.truthy]. step_monad. rewrite Hcat. step_monad.
  rewrite Hfind. step_monad.
  destruct (content env _) as [pages|]; [|reflexivity]. step_monad.
  split_reads.
Qed.

Lemma getExtraInfo_falls_back_on_appName_witness :
  fst (getExtraInfo env_no_slug "Game" (Some "ns") world0)
  = fst (getExtraInfo env_no_slug "Game" None world0).
Proof.
  apply (getExtraInfo_falls_back_on_appName env_no_slug "Game" (Some "ns")
           [None; Some ""] world0); reflexivity.
Defined.

(** X22: [getExtraInfo] deletes the first requirement of the first system
    of the first page before it looks for the ['productHome'] page.  When
    that page is the first one, the requirements it answers with start
    with a hole where the first entry was; the rest is as served. *)
Theorem getExtraInfo_drops_first_requirement
    env appName namespace w about first rest_details more_systems more_pages :
  online env = true ->
  JS.truthy namespace = false ->
  content env ("https://store-content.ak.epicgames.com/api/"
                 +:+ (if String.eqb (language env) "pt" then "pt-BR" else language env)
                 +:+ "/content/products/" +:+ appName)
  = Some ({| page_type := "productHome";
             page_data := Some
               {| data_about := about;
                  requirements := Some
                    {| systems := Some
                         ({| details := Some (first :: rest_details) |}
                            :: more_systems) |} |} |} :: more_pages) ->
  fst (getExtraInfo env appName namespace w)
  = Ok {| extra_about := about; reqs := Some (None :: rest_details) |}.
Proof.
  intros Hon Hns Hcontent.
  unfold getExtraInfo, isOnline, getProductSlug, delete_first_detail, emit. step_monad.
  rewrite Hon, Hns. cbn [negb]. step_monad. rewrite Hcontent. reflexivity.
Qed.

Lemma getExtraInfo_drops_first_requirement_witness :
  fst (getExtraInfo env_no_slug "Game" None world0)
  = Ok {| extra_about := Some [("description", "A game")];
          reqs := Some (None :: [Some "OS"; Some "CPU"]) |}.
Proof.
  apply (getExtraInfo_drops_first_requirement env_no_slug "Game" None world0
           (Some [("description", "A game")]) (Some "Windows")
           [Some "OS"; Some "CPU"] [] []); reflexivity.
Defined.

(** When the ['productHome'] page is not the first one, the hole is cut
    into the other page and the requirements come back whole. *)
Example getExtraInfo_second_page_whole :
  let other := {| page_type := "other"; page_data := page_data page0 |} in
  fst (getExtraInfo
         {| legendaryBin := ""; heroicGamesConfigPath := ""; home := "";
            isWindows := false; platform := linux; maxWorkers := 0;
            discordRPC := false; language := "en"; gameSettings := settings0;
            titleOf := fun a => a; existsSync := fun _ => true;
            run := fun _ => {| exit_code := 0; exit_stdout := ""; exit_stderr := "" |};
            dxvk_ok := true; online := true; catalogOffers := fun _ => None;
            content := fun _ => Some [other; page0] |}
         "Game" None world0)
  = Ok {| extra_about := Some [("description", "A game")];
          reqs := Some [Some "Windows"; Some "OS"; Some "CPU"] |}.
Proof. reflexivity. Qed.

(* ===================================================================== *)
(** * update, repair, import and moveInstall *)
(* ===================================================================== *)

(** X23: [update] registers the handler of ['requestUpdateProgress'] and
    never removes it.  A second [update] in the same process therefore
    spawns the tool again and then rejects, because the channel has its
    handler already. *)
Theorem update_twice_rejects env appName w :
  "requestUpdateProgress" ∉ ipc_channels w ->
  let first := update env appName w in
  let second := update env appName (snd first) in
  fst first = Ok "game updated"
  /\ fst second = Throw (Rejected "Attempted to register a second handler")
  /\ added (trace (snd first)) (snd second)
     = [EvSpawn (legendaryBin env) (update_command env appName)].
Proof.
  intros Hfree. cbv zeta. rewrite !update_run. cbv zeta.
  rewrite (bool_decide_eq_false_2 _ Hfree). cbn [fst snd ipc_channels].
  rewrite bool_decide_eq_true_2 by (apply elem_of_cons; now left).
  cbn [fst snd]. repeat split. apply added_app. reflexivity.
Qed.

Lemma update_twice_rejects_witness :
  let first := update (env0 0 0 true) "Game" world0 in
  let second := update (env0 0 0 true) "Game" (snd first) in
  fst first = Ok "game updated"
  /\ fst second = Throw (Rejected "Attempted to register a second handler")
  /\ added (trace (snd first)) (snd second)
     = [EvSpawn "/opt/legendary" (update_command (env0 0 0 true) "Game")].
Proof.
  apply (update_twice_rejects (env0 0 0 true) "Game" world0).
  apply not_elem_of_nil.
Defined.

(** X24: [repair] never writes the library: installed-state and install
    path are what they were.  It settles as the command line it hands to
    the shell does, and that line is the tool piped through [tee] away
    from Windows and redirected to the log on Windows: the status is
    back at ['done'] exactly when that line exits with status zero;
    otherwise the error of [execAsync] is rethrown and the status stays
    ['repairing']. *)
Theorem repair_outcome env appName w :
  let command := repair_command env appName in
  let r := run env command in
  command =
    legendaryBin env +:+ " repair " +:+ appName +:+ " "
      +:+ (if (maxWorkers env =? 0)%Z then ""
           else "--max-workers " +:+ JS.of_number (maxWorkers env))
      +:+ " -y "
      +:+ (if isWindows env then "2>&1 > " else "|& tee ") +:+ logPath env appName
  /\ repair env appName w =
     (if (exit_code r =? 0)%Z
      then Ok {| stdout := exit_stdout r; stderr := exit_stderr r |}
      else Throw (ExecError (exit_code r) (exit_stderr r)),
      {| status := if (exit_code r =? 0)%Z then done else repairing;
         installed := installed w; install_path := install_path w;
         ipc_channels := ipc_channels w;
         trace := trace w ++ [EvLogInfo ["Repairing " +:+ appName +:+ " with:"; command];
                              EvExec command] |}).
Proof.
  cbv zeta. split.
  - unfold repair_command, writeLog.
    destruct (maxWorkers env =? 0)%Z, (isWindows env); reflexivity.
  - unfold repair, logInfo, emit, set_status. step_monad.
    rewrite execAsync_run. cbn zeta.
    destruct (_ =? _)%Z; cbn; rewrite <- !app_assoc; reflexivity.
Qed.

(** X25: [import] runs [import-game] with the path between single quotes
    and, like [repair], never writes the library: a successful import
    does not mark the entity installed.  While it runs the status is
    ['installing']; it is reset only after an exit with code zero. *)
Theorem import_outcome env appName path w :
  let command :=
    legendaryBin env +:+ " import-game " +:+ appName +:+ " '" +:+ path +:+ "'" in
  let r := run env command in
  import env appName path w =
  (if (exit_code r =? 0)%Z
   then Ok {| stdout := exit_stdout r; stderr := exit_stderr r |}
   else Throw (ExecError (exit_code r) (exit_stderr r)),
   {| status := if (exit_code r =? 0)%Z then done else installing;
      installed := installed w; install_path := install_path w;
      ipc_channels := ipc_channels w;
      trace := trace w ++ [EvExec command] |}).
Proof.
  cbv zeta. unfold import, set_status. step_monad.
  rewrite execAsync_run. cbn zeta.
  destruct (_ =? _)%Z; reflexivity.
Qed.

(** X26: on an entity the library has no install path for, [moveInstall]
    throws at [install_path.split] before any command is run: nothing is
    moved, no record is written, and the status is left at ['moving']. *)
Theorem moveInstall_missing_path env appName newInstallPath w :
  install_path w !! appName = None ->
  moveInstall env appName newInstallPath w =
    (Throw (TypeError "split"),
     {| status := moving; installed := installed w; install_path := install_path w;
        ipc_channels := ipc_channels w; trace := trace w |}).
Proof.
  intros Hpath.
  unfold moveInstall, getGameInfo, set_status. step_monad.
  cbn [install_path info_install_path]. rewrite Hpath. reflexivity.
Qed.

Lemma moveInstall_missing_path_witness :
  moveInstall (env0 0 0 true) "Game" "/mnt/new" world0 =
    (Throw (TypeError "split"),
     {| status := moving; installed := ∅; install_path := ∅;
        ipc_channels := []; trace := [] |}).
Proof.
  apply (moveInstall_missing_path (env0 0 0 true) "Game" "/mnt/new" world0).
  reflexivity.
Defined.

(* ===================================================================== *)
(** * The progress listeners, chunk by chunk *)
(* ===================================================================== *)

(** X27: the listener on [stderr] throws exactly when the request was for
    this game and the chunk has fewer than two lines; a chunk for another
    game, or one with a second line however short, never makes it
    throw. *)
Theorem stderr_listener_outcome this appName data c :
  fst (UpdateProgress.on_stderr_data this appName data c) =
  if String.eqb appName this && (length (JS.split JS.LF data) <? 2)%nat
  then Throw (TypeError "split") else Ok tt.
Proof.
  unfold UpdateProgress.on_stderr_data, UpdateProgress.split_at,
    UpdateProgress.set_isVerifying, UpdateProgress.add_stdout_once.
  destruct (String.eqb appName this); [|reflexivity].
  destruct (JS.split JS.LF data) as [|line0 [|line1 rest]] eqn:Hlines.
  - now apply split_nonempty in Hlines.
  - step_monad. simpl.
    destruct (JS.includes "Game needs to be verified" data); reflexivity.
  - step_monad. simpl.
    destruct (JS.includes "Game needs to be verified" data); reflexivity.
Qed.

(** X28: the listener on [stdout] throws exactly when the chunk has fewer
    than four space-separated fields.  It has then already overwritten
    [progress.bytes] (with ["undefinedMiB"] when the third field is
    missing too), while [eta] becomes ['verifying'] only when it does not
    throw. *)
Theorem stdout_listener_outcome data c :
  let fields := JS.split JS.SP data in
  let out := UpdateProgress.on_stdout_data data c in
  fst out = (if (length fields <? 4)%nat then Throw (TypeError "split") else Ok tt)
  /\ UpdateProgress.bytes (UpdateProgress.progress (snd out))
     = Some (JS.interp (fields !! 2%nat) +:+ "MiB")
  /\ UpdateProgress.eta (UpdateProgress.progress (snd out))
     = (if (length fields <? 4)%nat then UpdateProgress.eta (UpdateProgress.progress c)
        else Some "verifying").
Proof.
  cbv zeta.
  unfold UpdateProgress.on_stdout_data, UpdateProgress.split_at,
    UpdateProgress.set_progress.
  destruct (JS.split JS.SP data) as [|f0 [|f1 [|f2 [|f3 rest]]]];
    try (step_monad; repeat split; reflexivity).
  step_monad. cbn [lookup list_lookup]. step_monad.
  destruct (JS.split ")" f3) as [|head tail] eqn:Hsplit.
  - now apply split_nonempty in Hsplit.
  - cbn [lookup list_lookup]. step_monad. repeat split; reflexivity.
Qed.

(** X29: a request answers with the snapshot as it is when the request
    arrives, and only chains a listener for the next chunk: the first
    request always gets the snapshot it found, and what a two-line chunk
    reports is seen by the request after it.  The megabytes default to
    [0.00] when the second line has no sixth field; the percentage and
    the ETA are the fifth and the eleventh field of the first line,
    [undefined] when the line is shorter. *)
Theorem request_sees_previous_chunk this data c line0 line1 rest :
  UpdateProgress.stderr_once c = [] ->
  JS.split JS.LF data = line0 :: line1 :: rest ->
  let session :=
    UpdateProgress.requestUpdateProgress this;;
    UpdateProgress.emit_stderr this data;;
    UpdateProgress.requestUpdateProgress this in
  fst (UpdateProgress.requestUpdateProgress this c) = Ok (UpdateProgress.progress c)
  /\ fst (session c) =
       Ok {| UpdateProgress.bytes :=
               Some (JS.or_else (JS.split JS.SP line1 !! 5%nat) "0.00" +:+ "MiB");
             UpdateProgress.eta := JS.split JS.SP line0 !! 10%nat;
             UpdateProgress.percent := JS.split JS.SP line0 !! 4%nat |}
  /\ UpdateProgress.stderr_once (snd (session c)) = [this].
Proof.
  intros Hnone Hlines. cbv zeta.
  unfold UpdateProgress.requestUpdateProgress, UpdateProgress.emit_stderr,
    UpdateProgress.add_stderr_once, UpdateProgress.logInfo_progress.
  step_monad. cbn [UpdateProgress.stderr_once UpdateProgress.progress].
  rewrite Hnone. cbn [app UpdateProgress.run_stderr_listeners].
  unfold UpdateProgress.on_stderr_data, UpdateProgress.split_at,
    UpdateProgress.set_isVerifying, UpdateProgress.add_stdout_once,
    UpdateProgress.pop_stderr_once, UpdateProgress.set_progress.
  rewrite String.eqb_refl, Hlines. step_monad. simpl.
  destruct (JS.includes "Game needs to be verified" data); repeat split; reflexivity.
Qed.

Lemma request_sees_previous_chunk_witness :
  let data := "a b c d 12.50% f g h i j 00:00:35" +:+ JS.nl +:+ "a b c d e 100.00 g" in
  let session :=
    UpdateProgress.requestUpdateProgress "Game";;
    UpdateProgress.emit_stderr "Game" data;;
    UpdateProgress.requestUpdateProgress "Game" in
  fst (UpdateProgress.requestUpdateProgress "Game" UpdateProgress.closure0)
    = Ok (UpdateProgress.progress UpdateProgress.closure0)
  /\ fst (session UpdateProgress.closure0) =
       Ok {| UpdateProgress.bytes :=
               Some (JS.or_else (JS.split JS.SP "a b c d e 100.00 g" !! 5%nat) "0.00"
                       +:+ "MiB");
             UpdateProgress.eta :=
               JS.split JS.SP "a b c d 12.50% f g h i j 00:00:35" !! 10%nat;
             UpdateProgress.percent :=
               JS.split JS.SP "a b c d 12.50% f g h i j 00:00:35" !! 4%nat |}
  /\ UpdateProgress.stderr_once (snd (session UpdateProgress.closure0)) = ["Game"].
Proof.
  apply (request_sees_previous_chunk "Game"
           ("a b c d 12.50% f g h i j 00:00:35" +:+ JS.nl +:+ "a b c d e 100.00 g")
           UpdateProgress.closure0
           "a b c d 12.50% f g h i j 00:00:35" "a b c d e 100.00 g" []);
    reflexivity.
Defined.

(* ===================================================================== *)
(** * The exit status behind the log pipe *)
(* ===================================================================== *)

(** C3 (defect of the code): away from Windows [install] runs the tool as
    [tool |& tee log], and the status the shell reports for that line is
    the one of [tee].  Whatever code the tool exits with, [execAsync]
    resolves: the [catch] that sets the installed-state back and calls
    [errorHandler] is not entered, the result is the success value, the
    installed-state stays true and the desktop shortcut is requested. *)
Theorem install_resolves_although_tool_fails code :
  let env := env_tee code in
  let tool := "/opt/legendary install Game --base-path /games  -y" in
  let command := tool +:+ " |& tee " +:+ logPath env "Game" in
  let out := install string handler0 env "Game" "/games" world0 in
  install_command env "Game" "/games" = command
  /\ exit_code (run env tool) = code
  /\ fst out = Ok (Resolved {| stdout := ""; stderr := "" |})
  /\ installed (snd out) !! "Game" = Some true
  /\ status (snd out) = done
  /\ trace (snd out) =
       [EvLogInfo ["Installing Game with:"; command];
        EvInstallState "Game" true; EvExec command; EvAddDesktopShortcut "Game"].
Proof.
  cbv zeta. repeat split; reflexivity.
Qed.

(** The same line on a host where the whole command fails (the status of
    a redirection, as on Windows, is the tool's): the failure is handled. *)
Example install_handles_failing_command :
  let out := install string handler0 (env_windows 1) "Game" "C:/games" world0 in
  fst out = Ok (Handled (JS.dq +:+ "C:/cfg/Game.log" +:+ JS.dq))
  /\ installed (snd out) !! "Game" = Some false.
Proof. vm_compute. split; reflexivity. Qed.

(** [repair] pipes the tool through [tee] in the same way: with a failing
    tool under such a shell it resolves and ends at ['done']. *)
Example repair_resolves_although_tool_fails :
  let out := repair (env_tee 1) "Game" world0 in
  exit_code (run (env_tee 1) "/opt/legendary repair Game  -y") = 1%Z
  /\ fst out = Ok {| stdout := ""; stderr := "" |}
  /\ status (snd out) = done.
Proof. repeat split; reflexivity. Qed.
